(** * GNSS single-point positioning: [observation.cpp]

    A shallow embedding of [ObservationData::ObservationData] (the RINEX
    observation reader) and of [ObservationRecord::computeReceiverPosition]
    (the iterative weighted least-squares solver), followed by the
    properties of the written specification that concern them.

    Numbers are IEEE-754 binary64 values ([PrimFloat.float], the C++
    [double]); comparisons are the primitive ones, so a NaN operand makes
    every test false exactly as in the program.  What the translation unit
    takes from other headers (the mathematical library, [Reference],
    [Coordinates], [DateTime]/[GpsWeekSecond], [NavigationData],
    [NavigationRecord], Eigen's [inverse]) is gathered in the interface
    [Environment]; nothing is assumed about it.

    Every arithmetic operation is rounded on its own, sums and products of
    Eigen expressions are taken in storage order, and the [int] counters of
    the loops ([satIndex], [countDisposed], [itrAdjust], [itrTime]) are
    natural numbers: an epoch holds far fewer than 2^31 satellites. *)

From Stdlib Require Import PrimFloat SpecFloat FloatAxioms.
From Stdlib Require Import ZArith String Ascii List Bool Lia.
From stdpp Require Import list.

Set Warnings "-inexact-float".

(** ** Doubles and fixed-size vectors *)

Definition double : Type := float.

Module Import Vec.
Local Open Scope float_scope.

(** Eigen's [Vector3d]. *)
Record Vector3d : Type := V3 { vx : double; vy : double; vz : double }.

Definition vsub (a b : Vector3d) : Vector3d :=
  V3 (vx a - vx b) (vy a - vy b) (vz a - vz b).

(** [v.norm()]: square root of the sum of squares, summed in storage
    order. *)
Definition norm (v : Vector3d) : double :=
  sqrt (vx v * vx v + vy v * vy v + vz v * vz v).

(** Eigen's [VectorXd solution] of the 4x4 normal equations. *)
Record Vector4d : Type :=
  V4 { s0 : double; s1 : double; s2 : double; s3 : double }.

(** [solution.block<3, 1>(0, 0)]. *)
Definition head3 (s : Vector4d) : Vector3d := V3 (s0 s) (s1 s) (s2 s).
End Vec.

(** ** Dynamic Eigen expressions

    A dense expression is viewed through its coefficients; the sizes are
    supplied where an operation needs them, as Eigen tracks them at run
    time.  A product over an empty inner dimension is the zero matrix. *)

Module Import Eigen.
Local Open Scope float_scope.

Definition Dense : Type := nat -> nat -> double.

Definition sumTo (k : nat) (f : nat -> double) : double :=
  match k with
  | O => 0
  | S k' => fold_left (fun acc l => acc + f l) (seq 1 k') (f O)
  end.

Definition product (inner : nat) (A B : Dense) : Dense :=
  fun i j => sumTo inner (fun l => A i l * B l j).

Definition transpose (A : Dense) : Dense := fun i j => A j i.

(** [v.asDiagonal()] *)
Definition asDiagonal (v : list double) : Dense :=
  fun i j => if Nat.eqb i j then nth i v 0 else 0.

(** A [MatrixXd] kept as the list of its rows, and a column vector. *)
Definition ofRows (M : list (list double)) : Dense :=
  fun i j => nth j (nth i M []) 0.

Definition ofColumn (v : list double) : Dense :=
  fun i _ => nth i v 0.
End Eigen.

(** ** The epoch record and what the solver borrows *)

(** [DateTime(year, month, day, hour, minute, second)]. *)
Record DateTime : Type := mkDateTime {
  year : Z; month : Z; day : Z; hour : Z; minute : Z; second : Z
}.

Record ObservationRecord : Type := mkObservationRecord {
  _receiverTime : DateTime;
  _statusFlag : Z;
  _sumSat : Z;
  _listSatPRN : list string;
  _pseudorange_C1C : list double;
  _pseudorange_C2P : list double;
  _phase_L1C : list double;
  _phase_L2P : list double
}.

(** Everything [observation.cpp] uses and does not define. *)
Class Environment : Type := {
  (** [Reference]: constants *)
  PI : double;
  EPS : double;
  Reference_c : double;
  (** [<cmath>] *)
  sin : double -> double;
  cos : double -> double;
  asin : double -> double;
  pow : double -> double -> double;
  (** [<cstdlib>] *)
  atof : string -> double;
  atoi : string -> Z;
  (** [<fstream>]: what opening a path yields, [None] when it fails *)
  ifstream_open : string -> option string;
  (** [Coordinates] *)
  Coordinates : Type;
  Coordinates_xyz : double -> double -> double -> Coordinates;
  Coordinates_vec : Vector3d -> Coordinates;
  toXYZ : Coordinates -> Vector3d;
  toNEU : Coordinates -> Coordinates -> Vector3d;
  (** [GpsWeekSecond(t)._second] *)
  GpsWeekSecond_second : DateTime -> double;
  (** [NavigationRecord]; [computeSatellitePosition] receives the time
      through a pointer, so it yields the position together with the value
      it leaves in [*time]. *)
  NavigationRecord : Type;
  _Toc : NavigationRecord -> DateTime;
  _a0 : NavigationRecord -> double;
  _a1 : NavigationRecord -> double;
  _a2 : NavigationRecord -> double;
  _OmegaDOT : NavigationRecord -> double;
  computeSatellitePosition : NavigationRecord -> double -> Coordinates * double;
  (** [NavigationData::findCloseRecord]; [None] is the null pointer. *)
  NavigationData : Type;
  findCloseRecord : NavigationData -> DateTime -> string -> option NavigationRecord;
  (** Eigen: [M.inverse()] of a square matrix of the given size, and the
      indeterminate content of freshly sized storage. *)
  inverse : nat -> Dense -> Dense;
  uninitialized : nat -> double
}.

(** ** Outcomes

    [computeReceiverPosition] returns a pointer, returns [nullptr] from one
    of four [return] statements, or leaves through [std::out_of_range]
    raised by [vector::at].  The caller sees one null pointer; the model
    keeps which statement produced it. *)

Inductive ReturnSite : Type :=
| OuterNotConverged      (* line 87 *)
| NoEphemeris            (* line 107 *)
| InnerNotConverged      (* line 121 *)
| NotEnoughObservations. (* line 166 *)

Inductive Outcome (A : Type) : Type :=
| Value (a : A)
| Null (site : ReturnSite)
| OutOfRange.
Arguments Value {A} a.
Arguments Null {A} site.
Arguments OutOfRange {A}.

Definition isNull {A : Type} (r : Outcome A) : bool :=
  match r with Null _ => true | _ => false end.

#[global] Instance Outcome_bind : MBind Outcome := fun A B k r =>
  match r with
  | Value a => k a
  | Null s => Null s
  | OutOfRange => OutOfRange
  end.

(** [v.at(i)] *)
Definition at_ {A : Type} (v : list A) (i : nat) : Outcome A :=
  match v !! i with
  | Some a => Value a
  | None => OutOfRange
  end.

(** ** [ObservationRecord::computeReceiverPosition] *)

Module Import Solver.
Local Open Scope float_scope.

Definition ITER_TOL : double := 1E-8.
Definition BLUNDER_PICKER : double := 0.5E6.

(** The iterated unknowns: [recCoord] and [recClockError]. *)
Record Estimate : Type := mkEstimate {
  recCoord : Vector3d;
  recClockError : double
}.

(** What an accepted satellite writes: one row of [designMat], one entry
    of [observableVec], one entry of [weightVec]. *)
Record Equation : Type := mkEquation {
  eqRow : list double;
  eqObservable : double;
  eqWeight : double
}.

(** The three buffers of one outer pass and the counter of dropped
    satellites. *)
Record Buffers : Type := mkBuffers {
  designMat : list (list double);
  observableVec : list double;
  weightVec : list double;
  countDisposed : nat
}.

(** The system handed to the normal equations. *)
Record LinearSystem : Type := mkLinearSystem {
  sysDesign : list (list double);
  sysObservable : list double;
  sysWeight : list double
}.

Section Position.
Context {env : Environment}.

Definition CUTOFF_ELEVATION : double := 10.0 / 180 * PI.

(** [rotationCorrection << cos, sin, 0, -sin, cos, 0, 0, 0, 1] applied to a
    vector. *)
Definition rotationCorrection (angle : double) (v : Vector3d) : Vector3d :=
  V3 (cos angle * vx v + sin angle * vy v + 0 * vz v)
     ((- sin angle) * vx v + cos angle * vy v + 0 * vz v)
     (0 * vx v + 0 * vy v + 1 * vz v).

Section Epoch.
Variable self : ObservationRecord.
Variable navigationData : NavigationData.
Variable approxRecCoord : Coordinates.

Section Pass.
Variable est : Estimate.

Section Satellite.
Variable closeRecord : NavigationRecord.
Variable pseudorange : double.

Definition recTimeF : double := GpsWeekSecond_second (_receiverTime self).

Definition angle : double := _OmegaDOT closeRecord * (pseudorange / Reference_c).

(** One body of the transmission-time loop up to the convergence test:
    from the delay it yields the new [satTimeF] and [satCoord]. *)
Definition transmit (estimatedTimeDelay : double) : double * Vector3d :=
  let satTimeF := recTimeF - recClockError est - estimatedTimeDelay in
  let '(position, satTimeF) := computeSatellitePosition closeRecord satTimeF in
  (satTimeF, rotationCorrection angle (toXYZ position)).

Definition nextDelay (satCoord : Vector3d) : double :=
  norm (vsub satCoord (recCoord est)) / Reference_c.

(** [for (int itrTime = 0; itrTime <= 100; ++itrTime)]; [left] counts the
    bodies still allowed, [100 - itrTime].  [None] is the [return nullptr]
    of line 121. *)
Fixpoint transmissionLoop (left : nat) (satTimeF estimatedTimeDelay : double)
  : option (double * Vector3d) :=
  match left with
  | O => None
  | S left' =>
      let satTimePrev := satTimeF in
      let '(satTimeF, satCoord) := transmit estimatedTimeDelay in
      if abs (satTimeF - satTimePrev) <=? ITER_TOL
      then Some (satTimeF, satCoord)
      else transmissionLoop left' satTimeF (nextDelay satCoord)
  end.

Definition satElevationOf (satCoord : Vector3d) : double :=
  let satCoordNEU := toNEU (Coordinates_vec satCoord) approxRecCoord in
  asin (vz satCoordNEU / norm satCoordNEU).

Definition rhoOf (satCoord : Vector3d) : double :=
  norm (vsub (recCoord est) satCoord).

Definition satClockErrorOf (satTimeF : double) : double :=
  let closeTocF := GpsWeekSecond_second (_Toc closeRecord) in
  _a0 closeRecord + _a1 closeRecord * (satTimeF - closeTocF)
  + _a2 closeRecord * pow (satTimeF - closeTocF) 2.

(** Lines 151-160: the values an accepted satellite writes. *)
Definition equationOf (satTimeF : double) (satCoord : Vector3d) : Equation :=
  let rho := rhoOf satCoord in
  let aX := (vx (recCoord est) - vx satCoord) / rho in
  let aY := (vy (recCoord est) - vy satCoord) / rho in
  let aZ := (vz (recCoord est) - vz satCoord) / rho in
  {| eqRow := [aX; aY; aZ; 1];
     eqObservable := pseudorange - rho + Reference_c * satClockErrorOf satTimeF;
     eqWeight := pow (sin (satElevationOf satCoord)) 2 |}.

(** Lines 109-160 for a satellite whose record was found: [Value None]
    is [++countDisposed; continue]. *)
Definition observe : Outcome (option Equation) :=
  match transmissionLoop 100 0 0.075 with
  | None => Null InnerNotConverged
  | Some (satTimeF, satCoord) =>
      if satElevationOf satCoord <=? CUTOFF_ELEVATION then Value None
      else if BLUNDER_PICKER <? abs (rhoOf satCoord - pseudorange) then Value None
      else Value (Some (equationOf satTimeF satCoord))
  end.

End Satellite.

(** Lines 98-160: the body of the satellite loop without its writes. *)
Definition satellite (satIndex : nat) : Outcome (option Equation) :=
  pseudorange ← at_ (_pseudorange_C1C self) satIndex;
  if pseudorange <? EPS then Value None
  else
    prn ← at_ (_listSatPRN self) satIndex;
    match findCloseRecord navigationData (_receiverTime self) prn with
    | None => Null NoEphemeris
    | Some closeRecord => observe closeRecord pseudorange
    end.

(** The writes of lines 101, 139, 147 and 158-160. *)
Definition store (satIndex : nat) (b : Buffers) (e : option Equation) : Buffers :=
  match e with
  | None =>
      {| designMat := designMat b; observableVec := observableVec b;
         weightVec := weightVec b; countDisposed := S (countDisposed b) |}
  | Some e =>
      let row := (satIndex - countDisposed b)%nat in
      {| designMat := <[row := eqRow e]> (designMat b);
         observableVec := <[row := eqObservable e]> (observableVec b);
         weightVec := <[row := eqWeight e]> (weightVec b);
         countDisposed := countDisposed b |}
  end.

(** [for (int satIndex = 0; satIndex < int(_listSatPRN.size()); ++satIndex)],
    run over the indices still to visit. *)
Fixpoint satelliteLoop (indices : list nat) (b : Buffers) : Outcome Buffers :=
  match indices with
  | [] => Value b
  | satIndex :: rest =>
      e ← satellite satIndex;
      satelliteLoop rest (store satIndex b e)
  end.

(** Lines 89-93: freshly sized storage. *)
Definition fresh (n : nat) : Buffers :=
  {| designMat := map (fun i => map (fun j => uninitialized (4 * i + j)) (seq 0 4)) (seq 0 n);
     observableVec := map uninitialized (seq 0 n);
     weightVec := map uninitialized (seq 0 n);
     countDisposed := 0 |}.

(** Lines 163-175: the size test and the truncation to the leading rows. *)
Definition compact (n : nat) (b : Buffers) : Outcome LinearSystem :=
  if (0 <? countDisposed b)%nat then
    if (n - countDisposed b <? 4)%nat then Null NotEnoughObservations
    else
      let kept := (n - countDisposed b)%nat in
      Value {| sysDesign := take kept (designMat b);
               sysObservable := take kept (observableVec b);
               sysWeight := take kept (weightVec b) |}
  else
    Value {| sysDesign := designMat b;
             sysObservable := observableVec b;
             sysWeight := weightVec b |}.

(** Lines 89-175: one outer pass up to the linear system. *)
Definition assemble : Outcome LinearSystem :=
  let n := length (_listSatPRN self) in
  b ← satelliteLoop (seq 0 n) (fresh n);
  compact n b.

End Pass.

(** Line 178: [(A^T W A).inverse() * A^T * W * b], products taken left to
    right. *)
Definition normalEquations (sys : LinearSystem) : Vector4d :=
  let n := length (sysDesign sys) in
  let A := ofRows (sysDesign sys) in
  let At := transpose A in
  let weightMat := asDiagonal (sysWeight sys) in
  let N := product n (product n At weightMat) A in
  let x := product n (product n (product 4 (inverse 4 N) At) weightMat)
                   (ofColumn (sysObservable sys)) in
  V4 (x 0 0)%nat (x 1 0)%nat (x 2 0)%nat (x 3 0)%nat.

(** Lines 179-182. *)
Definition update (est : Estimate) (solution : Vector4d) : Estimate :=
  {| recCoord := V3 (vx (recCoord est) + s0 solution)
                    (vy (recCoord est) + s1 solution)
                    (vz (recCoord est) + s2 solution);
     recClockError := s3 solution / Reference_c |}.

(** [for (int itrAdjust = 0; itrAdjust <= 100; ++itrAdjust)]; [left] is
    [100 - itrAdjust], and [Null OuterNotConverged] the [return nullptr]
    of line 87. *)
Fixpoint adjustLoop (left : nat) (est : Estimate) : Outcome Vector3d :=
  match left with
  | O => Null OuterNotConverged
  | S left' =>
      sys ← assemble est;
      let solution := normalEquations sys in
      let est' := update est solution in
      if norm (head3 solution) <? ITER_TOL then Value (recCoord est')
      else adjustLoop left' est'
  end.

Definition initial : Estimate :=
  {| recCoord := toXYZ approxRecCoord; recClockError := 0 |}.

Definition computeReceiverPosition : Outcome Coordinates :=
  recCoord ← adjustLoop 100 initial;
  Value (Coordinates_vec recCoord).

End Epoch.
End Position.
End Solver.

(** ** [ObservationData::ObservationData] *)

Module Import Reader.

(** [std::string::substr]: raises when [pos] is past the end, and is cut
    short at the end of the string otherwise.  [None] is the exception. *)
Definition substr (s : string) (pos len : nat) : option string :=
  if (pos <=? String.length s)%nat then Some (String.substring pos len s) else None.

(** An input stream as [getline] and [eof] see it. *)
Record ifstream : Type := mkStream {
  pending : string;
  eofbit : bool;
  failbit : bool
}.

Definition newline : ascii := ascii_of_nat 10.

(** The characters before the first newline, and what follows it; no
    second component when the end comes first. *)
Fixpoint untilNewline (s : string) : string * option string :=
  match s with
  | EmptyString => (EmptyString, None)
  | String ch rest =>
      if Ascii.eqb ch newline then (EmptyString, Some rest)
      else let '(l, r) := untilNewline rest in (String ch l, r)
  end.

(** [std::getline(file, line)]: a stream that is not good fails and leaves
    [line] alone; otherwise [line] is replaced, the newline is consumed,
    reaching the end sets [eofbit], and extracting nothing sets
    [failbit]. *)
Definition getline (file : ifstream) (line : string) : ifstream * string :=
  if eofbit file || failbit file
  then (mkStream (pending file) (eofbit file) true, line)
  else
    match untilNewline (pending file) with
    | (l, Some rest) => (mkStream rest false false, l)
    | (l, None) =>
        (mkStream EmptyString true (match l with EmptyString => true | _ => false end), l)
    end.

(** How a run of the constructor ends: normally, by [std::out_of_range],
    or, for the model only, by using up the steps it was given. *)
Inductive Run (A : Type) : Type :=
| Finished (a : A)
| Raised
| Starved.
Arguments Finished {A} a.
Arguments Raised {A}.
Arguments Starved {A}.

Definition raising {A : Type} (o : option A) : Run A :=
  match o with Some a => Finished a | None => Raised end.

#[global] Instance Run_bind : MBind Run := fun A B k r =>
  match r with
  | Finished a => k a
  | Raised => Raised
  | Starved => Starved
  end.

Section Construction.
Context {env : Environment}.

Record ObservationHeader : Type := mkHeader {
  _infoLines : list string;
  (** [None] while the member is as default-constructed *)
  _approxPosition : option Coordinates
}.

Record ObservationData : Type := mkObservationData {
  _header : ObservationHeader;
  _observationRecords : list ObservationRecord
}.

(** Lines 17-31. *)
Fixpoint readHeader (steps : nat) (file : ifstream) (line : string)
    (header : ObservationHeader) : Run (ifstream * string * ObservationHeader) :=
  if eofbit file then Finished (file, line, header)
  else
    match steps with
    | O => Starved
    | S steps' =>
        let '(file, line) := getline file line in
        let header := mkHeader (_infoLines header ++ [line]) (_approxPosition header) in
        tag ← raising (substr line 60 13);
        if String.eqb tag "END OF HEADER" then Finished (file, line, header)
        else
          tag ← raising (substr line 60 19);
          if String.eqb tag "APPROX POSITION XYZ" then
            x ← raising (substr line 1 13);
            y ← raising (substr line 15 13);
            z ← raising (substr line 29 13);
            readHeader steps' file line
              (mkHeader (_infoLines header)
                 (Some (Coordinates_xyz (atof x) (atof y) (atof z))))
          else readHeader steps' file line header
    end.

(** Lines 58-62: the five [push_back]. *)
Definition pushSatellite (line : string) (record : ObservationRecord)
  : Run ObservationRecord :=
  prn ← raising (substr line 0 3);
  c1c ← raising (substr line 3 14);
  c2p ← raising (substr line 19 14);
  l1c ← raising (substr line 51 14);
  l2p ← raising (substr line 67 14);
  Finished {| _receiverTime := _receiverTime record;
              _statusFlag := _statusFlag record;
              _sumSat := _sumSat record;
              _listSatPRN := _listSatPRN record ++ [prn];
              _pseudorange_C1C := _pseudorange_C1C record ++ [atof c1c];
              _pseudorange_C2P := _pseudorange_C2P record ++ [atof c2p];
              _phase_L1C := _phase_L1C record ++ [atof l1c];
              _phase_L2P := _phase_L2P record ++ [atof l2p] |}.

(** Lines 52-63: [for (int i = 0; i < record->_sumSat; ++i)], [count]
    being the turns left. *)
Fixpoint readSatellites (count : nat) (file : ifstream) (line : string)
    (record : ObservationRecord) : Run (ifstream * string * ObservationRecord) :=
  match count with
  | O => Finished (file, line, record)
  | S count' =>
      let '(file, line) := getline file line in
      system ← raising (substr line 0 1);
      if negb (String.eqb system "G") then readSatellites count' file line record
      else
        record ← pushSatellite line record;
        readSatellites count' file line record
  end.

(** Lines 40-50: the epoch line. *)
Definition readEpochLine (line : string) : Run ObservationRecord :=
  year ← raising (substr line 1 5);
  month ← raising (substr line 6 3);
  day ← raising (substr line 9 3);
  hour ← raising (substr line 12 3);
  minute ← raising (substr line 15 3);
  second ← raising (substr line 18 11);
  flag ← raising (substr line 29 3);
  sum ← raising (substr line 32 3);
  Finished {| _receiverTime := mkDateTime (atoi year) (atoi month) (atoi day)
                                 (atoi hour) (atoi minute) (atoi second);
              _statusFlag := atoi flag;
              _sumSat := atoi sum;
              _listSatPRN := []; _pseudorange_C1C := []; _pseudorange_C2P := [];
              _phase_L1C := []; _phase_L2P := [] |}.

(** Lines 34-70. *)
Fixpoint readRecords (steps : nat) (file : ifstream) (line : string)
    (records : list ObservationRecord) : Run (list ObservationRecord) :=
  if eofbit file then Finished records
  else
    match steps with
    | O => Starved
    | S steps' =>
        let '(file, line) := getline file line in
        if String.eqb line "" then Finished records
        else
          record ← readEpochLine line;
          '(file, line, record) ← readSatellites (Z.to_nat (_sumSat record)) file line record;
          readRecords steps' file line (records ++ [record])
    end.

(** The constructor; every loop turn that goes on consumes a character of
    the file, so the steps given are never used up. *)
Definition ObservationData_of (filePath : string) : Run ObservationData :=
  let empty := mkObservationData (mkHeader [] None) [] in
  rinexType ← raising (if (String.length filePath =? 0)%nat then None
                       else substr filePath (String.length filePath - 1) 1);
  if negb (String.eqb rinexType "o") && negb (String.eqb rinexType "O")
  then Finished empty
  else
    match ifstream_open filePath with
    | None => Finished empty
    | Some content =>
        let steps := S (String.length content) in
        '(file, line, header) ←
          readHeader steps (mkStream content false false) EmptyString (mkHeader [] None);
        records ← readRecords steps file line [];
        Finished (mkObservationData header records)
    end.

End Construction.
End Reader.

(** * Vocabulary of the statements *)

(** Buffers of [n] rows in which the satellites below [i] have been
    visited: the accepted ones occupy the leading rows, the disposed ones
    are counted, the remaining rows are untouched. *)
Record Filled (n i : nat) (acc : list Equation) (b : Buffers) : Prop := {
  filled_count : (countDisposed b + length acc = i)%nat;
  filled_design : exists rest, designMat b = map eqRow acc ++ rest
                               /\ (length acc + length rest = n)%nat;
  filled_observable : exists rest, observableVec b = map eqObservable acc ++ rest
                                   /\ (length acc + length rest = n)%nat;
  filled_weight : exists rest, weightVec b = map eqWeight acc ++ rest
                               /\ (length acc + length rest = n)%nat
}.

(** The five per-satellite sequences of a record have one length; every
    retained identifier starts with the letter G; no more satellites are
    retained than the epoch line declares. *)
Record Retained (record : ObservationRecord) : Prop := {
  retained_C1C : length (_pseudorange_C1C record) = length (_listSatPRN record);
  retained_C2P : length (_pseudorange_C2P record) = length (_listSatPRN record);
  retained_L1C : length (_phase_L1C record) = length (_listSatPRN record);
  retained_L2P : length (_phase_L2P record) = length (_listSatPRN record);
  retained_system :
    Forall (fun prn => exists number, prn = String "G" number) (_listSatPRN record)
}.

(** What holds of every record the reader stores. *)
Definition Stored (record : ObservationRecord) : Prop :=
  Retained record
  /\ (length (_listSatPRN record) <= Z.to_nat (_sumSat record))%nat.

(** A stream whose [failbit] is set has its [eofbit] set too. *)
Definition sound (file : ifstream) : Prop :=
  eofbit file = false -> failbit file = false.

(** [steps] suffice for a loop reading [file]. *)
Definition enough (steps : nat) (file : ifstream) : Prop :=
  eofbit file = true \/ (String.length (pending file) < steps)%nat.

(** [file'] is [file] after some calls of [getline]. *)
Record advanced (file file' : ifstream) : Prop := {
  advanced_sound : sound file';
  advanced_pending : (String.length (pending file') <= String.length (pending file))%nat;
  advanced_eof : eofbit file = true -> eofbit file' = true
}.

(** The first of [count] bodies, counted from [k], whose test succeeds. *)
Definition firstMeeting (test : nat -> bool) (k count : nat) : option nat :=
  List.find test (seq k count).

Section Vocabulary.
Context {env : Environment}.
Variable self : ObservationRecord.
Variable navigationData : NavigationData.
Variable approxRecCoord : Coordinates.

(** Two ephemeris stores answer alike for every satellite of the epoch
    whose first pseudorange is not below [EPS]. *)
Definition agreeOnUsable (nav1 nav2 : NavigationData) : Prop :=
  forall satIndex pseudorange prn,
    _pseudorange_C1C self !! satIndex = Some pseudorange ->
    PrimFloat.ltb pseudorange EPS = false ->
    _listSatPRN self !! satIndex = Some prn ->
    findCloseRecord nav1 (_receiverTime self) prn
    = findCloseRecord nav2 (_receiverTime self) prn.

Section OfPass.
Variable est : Estimate.

(** The equations of the satellites of [indices] that are accepted, in the
    order of [indices]. *)
Fixpoint accepted (indices : list nat) : list Equation :=
  match indices with
  | [] => []
  | satIndex :: rest =>
      match satellite self navigationData approxRecCoord est satIndex with
      | Value (Some e) => e :: accepted rest
      | _ => accepted rest
      end
  end.

(** Satellite [satIndex] has a usable pseudorange, a navigation record, and
    a transmission-time loop that ended with [satTimeF] and [satCoord]. *)
Definition located (satIndex : nat) (closeRecord : NavigationRecord)
    (pseudorange satTimeF : double) (satCoord : Vector3d) : Prop :=
  _pseudorange_C1C self !! satIndex = Some pseudorange
  /\ PrimFloat.ltb pseudorange EPS = false
  /\ (exists prn, _listSatPRN self !! satIndex = Some prn
        /\ findCloseRecord navigationData (_receiverTime self) prn = Some closeRecord)
  /\ transmissionLoop self est closeRecord pseudorange 100 0%float 0.075%float
     = Some (satTimeF, satCoord).

(** The satellites of the epoch other than [satIndex], in order. *)
Definition others (satIndex : nat) : list nat :=
  seq 0 satIndex ++ seq (S satIndex) (length (_listSatPRN self) - S satIndex).

Section OfSatellite.
Variable closeRecord : NavigationRecord.
Variable pseudorange : double.

Local Abbreviation transmit := (Solver.transmit self est closeRecord pseudorange).

(** The iteration as the specification words it: the delay used by body
    [k] starts at 0.075 and is afterwards the distance between the
    satellite position of the previous body and the receiver estimate
    divided by the speed of light. *)
Fixpoint delayAt (k : nat) : double :=
  match k with
  | O => 0.075%float
  | S j => PrimFloat.div (norm (vsub (snd (transmit (delayAt j))) (recCoord est)))
             Reference_c
  end.

Definition satTimeAt (k : nat) : double := fst (transmit (delayAt k)).

Definition satCoordAt (k : nat) : Vector3d := snd (transmit (delayAt k)).

(** What body [k] compares its transmission time with: the one of the
    previous body, and the initial 0 for the first. *)
Definition satTimeBefore (k : nat) : double :=
  match k with
  | O => 0%float
  | S j => satTimeAt j
  end.

Definition changeAt (k : nat) : double :=
  PrimFloat.abs (PrimFloat.sub (satTimeAt k) (satTimeBefore k)).


End OfSatellite.
End OfPass.

(** One outer pass that solves a system without reaching the tolerance:
    the estimate the next pass starts from. *)
Definition pass (est : Estimate) : option Estimate :=
  match assemble self navigationData approxRecCoord est with
  | Value sys =>
      let solution := normalEquations sys in
      if PrimFloat.ltb (norm (head3 solution)) ITER_TOL then None
      else Some (update est solution)
  | _ => None
  end.

(** [k] such passes in a row. *)
Fixpoint passes (k : nat) (est : Estimate) : option Estimate :=
  match k with
  | O => Some est
  | S k' =>
      match pass est with
      | Some est' => passes k' est'
      | None => None
      end
  end.

(** The outer cap is met: 100 passes in a row solved a system whose
    3-component correction had a norm not below [ITER_TOL]. *)
Definition outerExhausted : Prop :=
  exists est, passes 100 (initial approxRecCoord) = Some est.

(** The inner cap is met: in some pass (after [p < 100] unsuccessful
    ones) a satellite is reached, has a usable pseudorange and a
    navigation record, and none of the 100 bodies of its transmission-time
    loop meets [ITER_TOL]. *)
Definition innerExhausted : Prop :=
  exists (p : nat) (est : Estimate) (satIndex : nat) (pseudorange : double)
         (prn : string) (closeRecord : NavigationRecord),
    (p < 100)%nat
    /\ passes p (initial approxRecCoord) = Some est
    /\ (forall i, (i < satIndex)%nat ->
          exists e, satellite self navigationData approxRecCoord est i = Value e)
    /\ _pseudorange_C1C self !! satIndex = Some pseudorange
    /\ PrimFloat.ltb pseudorange EPS = false
    /\ _listSatPRN self !! satIndex = Some prn
    /\ findCloseRecord navigationData (_receiverTime self) prn = Some closeRecord
    /\ (forall k, (k < 100)%nat ->
          PrimFloat.leb (changeAt est closeRecord pseudorange k) ITER_TOL = false).

End Vocabulary.

(** * A bench environment

    A concrete [Environment] on which the statements above are exercised:
    polynomial sine, cosine and arcsine, decimal [atoi]/[atof], a
    Gauss-Jordan [inverse], ephemerides given as tracks, a station on the
    equator at longitude 0 (so that North-East-Up is a permutation of the
    axes), and one file. *)

Module Bench.
Local Open Scope float_scope.

Fixpoint positive_to_double (p : positive) : double :=
  match p with
  | xH => 1
  | xO q => 2 * positive_to_double q
  | xI q => 2 * positive_to_double q + 1
  end.

Definition Z_to_double (z : Z) : double :=
  match z with
  | Z0 => 0
  | Zpos p => positive_to_double p
  | Zneg p => - positive_to_double p
  end.

(** Partial sums of the sine and cosine series. *)
Fixpoint series (n : nat) (k term x2 acc : double) : double :=
  match n with
  | O => acc
  | S m =>
      let term' := - term * x2 / ((k + 1) * (k + 2)) in
      series m (k + 2) term' x2 (acc + term')
  end.

Definition sine (x : double) : double := series 12 1 x (x * x) x.

Definition cosine (x : double) : double := series 12 0 1 (x * x) 1.

(** Newton steps on [sine y = x]. *)
Fixpoint arcsineFrom (n : nat) (x y : double) : double :=
  match n with
  | O => y
  | S m => arcsineFrom m x (y - (sine y - x) / cosine y)
  end.

Definition arcsine (x : double) : double := arcsineFrom 8 x x.

Definition square (x y : double) : double := if y =? 2 then x * x else nan.

(** Decimal numerals: blanks, a sign, digits, and for [atof] a fraction. *)
Fixpoint skipBlanks (s : string) : string :=
  match s with
  | String " "%char rest => skipBlanks rest
  | _ => s
  end.

Definition digit (ch : ascii) : option Z :=
  let n := nat_of_ascii ch in
  if (48 <=? n)%nat && (n <=? 57)%nat then Some (Z.of_nat (n - 48)) else None.

Fixpoint digits (s : string) (value scale : Z) : Z * Z * string :=
  match s with
  | EmptyString => (value, scale, s)
  | String ch rest =>
      match digit ch with
      | Some d => digits rest (10 * value + d)%Z (10 * scale)%Z
      | None => (value, scale, s)
      end
  end.

Definition signed {A : Type} (s : string) (read : string -> A) (negate : A -> A) : A :=
  match skipBlanks s with
  | String "-"%char rest => negate (read rest)
  | String "+"%char rest => read rest
  | rest => read rest
  end.

Definition decimalInt (s : string) : Z :=
  signed s (fun rest => fst (fst (digits rest 0 1))) Z.opp.

Definition decimal (s : string) : double :=
  signed s
    (fun rest =>
       let '(whole, _, rest) := digits rest 0%Z 1%Z in
       match rest with
       | String "."%char rest =>
           let '(part, scale, _) := digits rest 0%Z 1%Z in
           Z_to_double whole + Z_to_double part / Z_to_double scale
       | _ => Z_to_double whole
       end)
    PrimFloat.opp.

(** Gauss-Jordan elimination without pivoting on [A | I]. *)
Definition eliminate (n : nat) (M : list (list double)) : list (list double) :=
  fold_left
    (fun M col =>
       let pivotRow := nth col M [] in
       let pivot := nth col pivotRow 0 in
       let unitRow := map (fun x => x / pivot) pivotRow in
       imap (fun i row =>
               if Nat.eqb i col then unitRow
               else let k := nth col row 0 in
                    zip_with (fun a b => a - k * b) row unitRow) M)
    (seq 0 n) M.

Definition gaussJordan (n : nat) (A : Dense) : Dense :=
  let augmented :=
    map (fun i => map (A i) (seq 0 n)
                  ++ map (fun j => if Nat.eqb i j then 1 else 0) (seq 0 n))
        (seq 0 n) in
  let reduced := eliminate n augmented in
  fun i j => nth (n + j) (nth i reduced []) 0.

(** A stand-in for [inverse] that only scales: a damped step. *)
Definition damped (n : nat) (A : Dense) : Dense :=
  fun i j => if Nat.eqb i j then 1E-3 else 0.

(** An ephemeris: clock polynomial and the position as a function of the
    seconds elapsed since [toc]. *)
Record Ephemeris : Type := mkEphemeris {
  toc : DateTime;
  af0 : double;
  af1 : double;
  af2 : double;
  omegaDot : double;
  track : double -> Vector3d
}.

Definition secondOfDay (t : DateTime) : double :=
  Z_to_double (3600 * hour t + 60 * minute t + second t).

Definition lookupPRN (store : list (string * Ephemeris)) (prn : string)
  : option Ephemeris :=
  match List.find (fun entry => String.eqb (fst entry) prn) store with
  | Some entry => Some (snd entry)
  | None => None
  end.

Definition newlineString : string := String newline EmptyString.

Definition observationFile : string :=
  String.concat newlineString
    [ "  6378137.0000        0.0000        0.0000                  APPROX POSITION XYZ";
      "                                                            END OF HEADER";
      "> 2020 01 01 12 00  0.0000000  0  3";
      "G01  20238716.500    20238720.250           0.000   106355349.125    82874300.500";
      "R05  19000000.000    19000000.000           0.000   100000000.000    80000000.000";
      "G02  21841099.250    21841103.750           0.000   114775849.500    89435730.250";
      "" ]%string.

Definition environment (inv : nat -> Dense -> Dense) : Environment := {|
  PI := 3.141592653589793;
  EPS := 1E-10;
  Reference_c := 299792458;
  sin := sine;
  cos := cosine;
  asin := arcsine;
  pow := square;
  atof := decimal;
  atoi := decimalInt;
  ifstream_open := fun path =>
    if String.eqb path "site0010.20o" then Some observationFile else None;
  Coordinates := Vector3d;
  Coordinates_xyz := V3;
  Coordinates_vec := fun v => v;
  toXYZ := fun v => v;
  toNEU := fun sat ref => V3 (vz sat - vz ref) (vy sat - vy ref) (vx sat - vx ref);
  GpsWeekSecond_second := secondOfDay;
  NavigationRecord := Ephemeris;
  _Toc := toc;
  _a0 := af0;
  _a1 := af1;
  _a2 := af2;
  _OmegaDOT := omegaDot;
  computeSatellitePosition := fun e t => (track e (t - secondOfDay (toc e)), t);
  NavigationData := list (string * Ephemeris);
  findCloseRecord := fun store _ prn => lookupPRN store prn;
  inverse := inv;
  uninitialized := fun _ => nan
|}.

Definition bench : Environment := environment gaussJordan.

Definition bench_damped : Environment := environment damped.

Definition noon : DateTime := mkDateTime 2020 1 1 12 0 0.


(** A satellite moving uniformly from [(x, y, z)]. *)
Definition uniform (x y z : double) (vel : Vector3d) : Ephemeris :=
  mkEphemeris noon 1E-5 1E-11 0 (-8E-9)
    (fun dt => V3 (x + vx vel * dt) (y + vy vel * dt) (z + vz vel * dt)).

Definition orbit (x y z : double) : Ephemeris :=
  uniform x y z (V3 100 2000 (-1500)).

Definition G01 : Ephemeris := orbit 26560E3 0 0.
Definition G02 : Ephemeris := orbit 20000E3 15000E3 8000E3.
Definition G03 : Ephemeris := orbit 20000E3 (-15000E3) 8000E3.
Definition G04 : Ephemeris := orbit 20000E3 5000E3 (-16000E3).
Definition G05 : Ephemeris := orbit 7378137 26000E3 0.
Definition G06 : Ephemeris := orbit 22000E3 (-3000E3) 14000E3.
Definition G07 : Ephemeris := orbit 24000E3 3000E3 9000E3.
Definition G08 : Ephemeris := orbit 21000E3 (-9000E3) (-13000E3).

(** No record for G07. *)
Definition almanac : list (string * Ephemeris) :=
  [ ("G01", G01); ("G02", G02); ("G03", G03); ("G04", G04);
    ("G05", G05); ("G06", G06); ("G08", G08) ]%string.

Definition almanac_with_G07 : list (string * Ephemeris) :=
  almanac ++ [ ("G07"%string, G07) ].

Definition almanac_without_G02 : list (string * Ephemeris) :=
  [ ("G01", G01); ("G03", G03); ("G04", G04);
    ("G05", G05); ("G06", G06); ("G08", G08) ]%string.

(** G01 receding faster than light: its light-time iteration diverges. *)
Definition almanac_runaway : list (string * Ephemeris) :=
  [ ("G01"%string, uniform 26560E3 0 0 (V3 4E8 0 0)) ].

Definition station : Vector3d := V3 6378137 0 0.

(** G05 is low on the horizon, the pseudorange of G06 is 1000 km too long,
    that of G07 is missing. *)
Definition epoch : ObservationRecord := {|
  _receiverTime := noon;
  _statusFlag := 0;
  _sumSat := 8;
  _listSatPRN := ["G01"; "G02"; "G03"; "G04"; "G05"; "G06"; "G07"; "G08"]%string;
  _pseudorange_C1C := [20238716.568; 21841099.214; 21841360.870; 21656636.874;
                       26075990.258; 22247623.147; 0; 21592876.117];
  _pseudorange_C2P := [0; 0; 0; 0; 0; 0; 0; 0];
  _phase_L1C := [0; 0; 0; 0; 0; 0; 0; 0];
  _phase_L2P := [0; 0; 0; 0; 0; 0; 0; 0]
|}.




(** What the reader makes of [observationFile]. *)
Definition parsedRecord : ObservationRecord := {|
  _receiverTime := mkDateTime 2020 1 1 12 0 0;
  _statusFlag := 0;
  _sumSat := 3;
  _listSatPRN := ["G01"; "G02"]%string;
  _pseudorange_C1C := [20238716.5; 21841099.25];
  _pseudorange_C2P := [20238720.25; 21841103.75];
  _phase_L1C := [106355349.125; 114775849.5];
  _phase_L2P := [82874300.5; 89435730.25]
|}.

Definition start : Estimate := initial (env := bench) station.

Definition benchData : ObservationData (env := bench) :=
  @mkObservationData bench
    (@mkHeader bench
       [ "  6378137.0000        0.0000        0.0000                  APPROX POSITION XYZ";
         "                                                            END OF HEADER" ]%string
       (Some (V3 6378137 0 0)))
    [ parsedRecord ].

(** The system of the first pass over [epoch]: satellites 0-3 and 7. *)
Definition benchSystem : LinearSystem :=
  let eqs := accepted (env := bench) epoch almanac station start [0; 1; 2; 3; 7]%nat in
  {| sysDesign := map eqRow eqs;
     sysObservable := map eqObservable eqs;
     sysWeight := map eqWeight eqs |}.

End Bench.

(** * Further vocabulary *)

(** Two records with the same time, identifiers and first pseudoranges. *)
Definition sameObservations (r1 r2 : ObservationRecord) : Prop :=
  _receiverTime r1 = _receiverTime r2
  /\ _listSatPRN r1 = _listSatPRN r2
  /\ _pseudorange_C1C r1 = _pseudorange_C1C r2.

Section Endings.
Context {env : Environment}.
Variable self : ObservationRecord.
Variable navigationData : NavigationData.
Variable approxRecCoord : Coordinates.

(** How the pass that starts from [est] ends the call with [r]: by the
    failure of its assembly, or by a solution whose 3-component norm is
    below [ITER_TOL]. *)
Definition endsWith (est : Estimate) (r : Outcome Vector3d) : Prop :=
  match assemble self navigationData approxRecCoord est with
  | Value sys =>
      PrimFloat.ltb (norm (head3 (normalEquations sys))) ITER_TOL = true
      /\ r = Value (recCoord (update est (normalEquations sys)))
  | Null site => r = Null site
  | OutOfRange => r = OutOfRange
  end.

(** Every satellite of the epoch ends its turn without failure, at least
    one is disposed, and fewer than 4 are accepted. *)
Definition starved (est : Estimate) : Prop :=
  let n := length (_listSatPRN self) in
  (forall i, (i < n)%nat ->
     exists e, satellite self navigationData approxRecCoord est i = Value e)
  /\ (length (accepted self navigationData approxRecCoord est (seq 0 n)) < n)%nat
  /\ (length (accepted self navigationData approxRecCoord est (seq 0 n)) < 4)%nat.

End Endings.

Section HeaderLines.
Context {env : Environment}.

(** What a header line [l] makes of the approximate position [position]. *)
Definition afterLine (position : option Coordinates) (l : string)
  : option Coordinates :=
  if String.eqb (String.substring 60 19 l) "APPROX POSITION XYZ"
  then Some (Coordinates_xyz (atof (String.substring 1 13 l))
                             (atof (String.substring 15 13 l))
                             (atof (String.substring 29 13 l)))
  else position.

(** The approximate position that header lines give when read in order:
    that of the last line carrying APPROX POSITION XYZ at offset 60, from
    its columns 1-13, 15-27 and 29-41; [None] when no line carries it. *)
Definition positionOf (lines : list string) : option Coordinates :=
  fold_left afterLine lines None.

End HeaderLines.

(** Whether an outcome is a value. *)
Definition isValue {A : Type} (r : Outcome A) : bool :=
  match r with Value _ => true | _ => false end.

(** * More of the bench *)

Module MoreBench.
Import Bench.
Local Open Scope float_scope.

(** An environment with another file system. *)
Definition withFiles (base : Environment) (files : string -> option string)
  : Environment := {|
  PI := PI (Environment := base);
  EPS := EPS (Environment := base);
  Reference_c := Reference_c (Environment := base);
  sin := sin (Environment := base);
  cos := cos (Environment := base);
  asin := asin (Environment := base);
  pow := pow (Environment := base);
  atof := atof (Environment := base);
  atoi := atoi (Environment := base);
  ifstream_open := files;
  Coordinates := Coordinates (Environment := base);
  Coordinates_xyz := Coordinates_xyz (Environment := base);
  Coordinates_vec := Coordinates_vec (Environment := base);
  toXYZ := toXYZ (Environment := base);
  toNEU := toNEU (Environment := base);
  GpsWeekSecond_second := GpsWeekSecond_second (Environment := base);
  NavigationRecord := NavigationRecord (Environment := base);
  _Toc := _Toc (Environment := base);
  _a0 := _a0 (Environment := base);
  _a1 := _a1 (Environment := base);
  _a2 := _a2 (Environment := base);
  _OmegaDOT := _OmegaDOT (Environment := base);
  computeSatellitePosition := computeSatellitePosition (Environment := base);
  NavigationData := NavigationData (Environment := base);
  findCloseRecord := findCloseRecord (Environment := base);
  inverse := inverse (Environment := base);
  uninitialized := uninitialized (Environment := base)
|}.

(** The bench with one more file, which is empty. *)
Definition bench_empty_file : Environment :=
  withFiles bench
    (fun path => if String.eqb path "empty.20o" then Some EmptyString
                 else ifstream_open (Environment := bench) path).

(** Five satellites of which G05 is low and the pseudorange of G06 is too
    long: three are left. *)
Definition epoch_starved : ObservationRecord := {|
  _receiverTime := noon;
  _statusFlag := 0;
  _sumSat := 5;
  _listSatPRN := ["G01"; "G02"; "G03"; "G05"; "G06"]%string;
  _pseudorange_C1C := [20238716.568; 21841099.214; 21841360.870;
                       26075990.258; 22247623.147];
  _pseudorange_C2P := [0; 0; 0; 0; 0];
  _phase_L1C := [0; 0; 0; 0; 0];
  _phase_L2P := [0; 0; 0; 0; 0]
|}.

(** Four satellites without any first pseudorange. *)
Definition epoch_silent : ObservationRecord := {|
  _receiverTime := noon;
  _statusFlag := 0;
  _sumSat := 4;
  _listSatPRN := ["G01"; "G02"; "G03"; "G04"]%string;
  _pseudorange_C1C := [0; 0; 0; 0];
  _pseudorange_C2P := [20238720.25; 21841103.75; 21841365.5; 21656641.25];
  _phase_L1C := [0; 0; 0; 0];
  _phase_L2P := [0; 0; 0; 0]
|}.

(** [epoch] with other second pseudoranges, phases, flag and count. *)
Definition epoch_other_signals : ObservationRecord := {|
  _receiverTime := noon;
  _statusFlag := 1;
  _sumSat := 12;
  _listSatPRN := _listSatPRN epoch;
  _pseudorange_C1C := _pseudorange_C1C epoch;
  _pseudorange_C2P := [20238720.25];
  _phase_L1C := [];
  _phase_L2P := [106355349.125; 114775849.5]
|}.

End MoreBench.

(** * Properties *)

(** ** The satellite loop fills the buffers from row 0 *)

Section Assembly.
Context {env : Environment}.
Variable self : ObservationRecord.
Variable navigationData : NavigationData.
Variable approxRecCoord : Coordinates.
Variable est : Estimate.

Local Abbreviation satellite := (Solver.satellite self navigationData approxRecCoord est).
Local Abbreviation satelliteLoop := (Solver.satelliteLoop self navigationData approxRecCoord est).
Local Abbreviation assemble := (Solver.assemble self navigationData approxRecCoord est).
Local Abbreviation accepted := (accepted self navigationData approxRecCoord est).

Lemma insert_after_prefix {A B : Type} (f : A -> B) (acc : list A) (rest : list B)
    (n i : nat) (x : A) :
  (length acc + length rest = n)%nat -> (length acc <= i)%nat -> (i < n)%nat ->
  exists rest', <[length acc := f x]> (map f acc ++ rest) = map f (acc ++ [x]) ++ rest'
                /\ (length (acc ++ [x]) + length rest' = n)%nat.
Proof.
  intros Hn Hi Hlt.
  destruct rest as [|y rest]; simpl in Hn; [lia|].
  exists rest. split.
  - rewrite insert_app_r_alt by (rewrite length_map; lia).
    rewrite length_map, Nat.sub_diag. simpl.
    rewrite map_app. simpl. rewrite <- app_assoc. reflexivity.
  - rewrite length_app. simpl. lia.
Qed.

Lemma Filled_fresh (n : nat) : Filled n 0 [] (fresh n).
Proof.
  split; simpl; [reflexivity| | |];
    eexists; (split; [reflexivity|]); rewrite length_map, length_seq; reflexivity.
Qed.

Lemma Filled_store (n i : nat) (acc : list Equation) (b : Buffers) (e : option Equation) :
  (i < n)%nat -> Filled n i acc b ->
  Filled n (S i) (match e with Some e => acc ++ [e] | None => acc end) (store i b e).
Proof.
  intros Hlt [Hc [ra [Ha Hla]] [ro [Ho Hlo]] [rw [Hw Hlw]]].
  destruct e as [e|]; simpl.
  - assert (Hrow : (i - countDisposed b)%nat = length acc) by lia.
    rewrite Hrow, Ha, Ho, Hw.
    destruct (insert_after_prefix eqRow acc ra n i e) as [ra' [-> ?]]; [lia..|].
    destruct (insert_after_prefix eqObservable acc ro n i e) as [ro' [-> ?]]; [lia..|].
    destruct (insert_after_prefix eqWeight acc rw n i e) as [rw' [-> ?]]; [lia..|].
    split; simpl; eauto.
    rewrite length_app; simpl; lia.
  - split; simpl; eauto; lia.
Qed.

Lemma accepted_app (l1 l2 : list nat) :
  accepted (l1 ++ l2) = accepted l1 ++ accepted l2.
Proof.
  induction l1 as [|i l1 IH]; simpl; [reflexivity|].
  destruct (satellite i) as [[e|]| |]; simpl; rewrite IH; reflexivity.
Qed.

Lemma satelliteLoop_Filled (n k i : nat) (b b' : Buffers) :
  (i + k = n)%nat -> Filled n i (accepted (seq 0 i)) b ->
  satelliteLoop (seq i k) b = Value b' ->
  Filled n n (accepted (seq 0 n)) b'.
Proof.
  revert i b. induction k as [|k IH]; intros i b Hn HF Hrun; simpl in Hrun.
  - inversion Hrun; subst b'. assert (i = n) as -> by lia. exact HF.
  - destruct (Solver.satellite self navigationData approxRecCoord est i)
      as [e| |] eqn:Hsat; simpl in Hrun; try discriminate.
    apply (IH (S i) (store i b e)); [lia| |exact Hrun].
    rewrite seq_S, accepted_app. simpl. rewrite Hsat.
    apply (Filled_store n i _ b e) in HF; [|lia].
    destruct e; simpl; [exact HF|rewrite app_nil_r; exact HF].
Qed.

Lemma take_prefix {A : Type} (l rest : list A) (n d : nat) :
  (d + length l = n)%nat -> (length l + length rest = n)%nat ->
  take (n - d) (l ++ rest) = l.
Proof.
  intros Hd Hn. replace (n - d)%nat with (length l) by lia.
  apply take_app_length.
Qed.

Lemma compact_Filled (n : nat) (acc : list Equation) (b : Buffers) (sys : LinearSystem) :
  Filled n n acc b -> compact n b = Value sys ->
  sysDesign sys = map eqRow acc
  /\ sysObservable sys = map eqObservable acc
  /\ sysWeight sys = map eqWeight acc.
Proof.
  intros [Hc [ra [Ha Hla]] [ro [Ho Hlo]] [rw [Hw Hlw]]] Hcompact.
  unfold compact in Hcompact.
  destruct (0 <? countDisposed b)%nat eqn:Hpos.
  - destruct (n - countDisposed b <? 4)%nat; [discriminate|].
    inversion Hcompact; subst sys; simpl.
    rewrite Ha, Ho, Hw.
    rewrite !(take_prefix _ _ n (countDisposed b)) by (rewrite ?length_map; lia).
    auto.
  - apply Nat.ltb_ge in Hpos.
    inversion Hcompact; subst sys; simpl.
    rewrite Ha, Ho, Hw.
    destruct ra; [|simpl in Hla; lia].
    destruct ro; [|simpl in Hlo; lia].
    destruct rw; [|simpl in Hlw; lia].
    rewrite !app_nil_r. auto.
Qed.

(** The system of a pass that reaches the solve is made of the accepted
    satellites' equations, in satellite order. *)
Lemma assemble_accepted (sys : LinearSystem) :
  assemble = Value sys ->
  let eqs := accepted (seq 0 (length (_listSatPRN self))) in
  sysDesign sys = map eqRow eqs
  /\ sysObservable sys = map eqObservable eqs
  /\ sysWeight sys = map eqWeight eqs.
Proof.
  unfold Solver.assemble. intros Hrun.
  set (n := length (_listSatPRN self)) in *.
  destruct (satelliteLoop (seq 0 n) (fresh n)) as [b| |] eqn:Hloop;
    simpl in Hrun; try discriminate.
  apply (compact_Filled n _ b); [|exact Hrun].
  apply (satelliteLoop_Filled n n 0 (fresh n)); [lia|apply Filled_fresh|exact Hloop].
Qed.

End Assembly.

(** ** How one satellite can end *)

Section Satellites.
Context {env : Environment}.
Variable self : ObservationRecord.
Variable approxRecCoord : Coordinates.

Lemma observe_sites (est : Estimate) (closeRecord : NavigationRecord)
    (pseudorange : double) (site : ReturnSite) :
  observe self approxRecCoord est closeRecord pseudorange = Null site ->
  site = InnerNotConverged.
Proof.
  unfold observe.
  destruct (transmissionLoop _ _ _ _ _ _ _) as [[t sc]|]; [|congruence].
  repeat case_match; discriminate.
Qed.

Lemma observe_not_thrown (est : Estimate) (closeRecord : NavigationRecord)
    (pseudorange : double) :
  observe self approxRecCoord est closeRecord pseudorange <> OutOfRange.
Proof.
  unfold observe.
  destruct (transmissionLoop _ _ _ _ _ _ _) as [[t sc]|]; [|congruence].
  repeat case_match; discriminate.
Qed.

(** A satellite whose pseudorange is stored never raises, and can only
    fail through the ephemeris lookup or the transmission-time loop. *)
Lemma satellite_in_range (navigationData : NavigationData) (est : Estimate)
    (satIndex : nat) :
  is_Some (_pseudorange_C1C self !! satIndex) ->
  is_Some (_listSatPRN self !! satIndex) ->
  (exists e, satellite self navigationData approxRecCoord est satIndex = Value e)
  \/ satellite self navigationData approxRecCoord est satIndex = Null NoEphemeris
  \/ satellite self navigationData approxRecCoord est satIndex = Null InnerNotConverged.
Proof.
  intros [pr Hpr] [prn Hprn]. unfold satellite, at_.
  rewrite Hpr. simpl. destruct (PrimFloat.ltb pr EPS); [eauto|].
  rewrite Hprn. simpl.
  destruct (findCloseRecord navigationData (_receiverTime self) prn) as [rec|]; [|auto].
  destruct (observe self approxRecCoord est rec pr) as [e|site|] eqn:Hobs; [eauto| |].
  - apply observe_sites in Hobs. subst site. auto.
  - exfalso. exact (observe_not_thrown _ _ _ Hobs).
Qed.

(** The satellite loop stops at the first satellite that fails. *)
Lemma satelliteLoop_first_failure (navigationData : NavigationData) (est : Estimate)
    (before after : list nat) (satIndex : nat) (b : Buffers) (site : ReturnSite) :
  (forall i, In i before ->
     exists e, satellite self navigationData approxRecCoord est i = Value e) ->
  satellite self navigationData approxRecCoord est satIndex = Null site ->
  satelliteLoop self navigationData approxRecCoord est (before ++ satIndex :: after) b
  = Null site.
Proof.
  revert b. induction before as [|i before IH]; intros b Hbefore Hsat; simpl.
  - rewrite Hsat. reflexivity.
  - destruct (Hbefore i) as [e He]; [left; reflexivity|].
    rewrite He. simpl. apply IH; [|exact Hsat].
    intros j Hj. apply Hbefore. right. exact Hj.
Qed.

(** If satellites [i .. i+k-1] all have a stored pseudorange and identifier
    and one of them has no ephemeris, the loop over them returns null. *)
Lemma satelliteLoop_missing_ephemeris (navigationData : NavigationData) (est : Estimate)
    (k i satIndex : nat) (b : Buffers) :
  (forall j, (i <= j <= satIndex)%nat ->
     is_Some (_pseudorange_C1C self !! j) /\ is_Some (_listSatPRN self !! j)) ->
  (i <= satIndex < i + k)%nat ->
  satellite self navigationData approxRecCoord est satIndex = Null NoEphemeris ->
  satelliteLoop self navigationData approxRecCoord est (seq i k) b = Null NoEphemeris
  \/ satelliteLoop self navigationData approxRecCoord est (seq i k) b
     = Null InnerNotConverged.
Proof.
  revert i b. induction k as [|k IH]; intros i b Hrange Hi Hsat; [lia|]. simpl.
  destruct (decide (i = satIndex)) as [->|Hne].
  - rewrite Hsat. auto.
  - destruct (Hrange i) as [Hpr Hprn]; [lia|].
    destruct (satellite_in_range navigationData est i Hpr Hprn) as [[e He]|[He|He]];
      rewrite He; simpl; auto.
    apply IH; [|lia|exact Hsat].
    intros j Hj. apply Hrange. lia.
Qed.

End Satellites.

(** ** Missing ephemeris *)

Section MissingEphemeris.
Context {env : Environment}.
Variable self : ObservationRecord.
Variable navigationData : NavigationData.
Variable approxRecCoord : Coordinates.

(** A satellite that passes the missing-value test and has no navigation
    record makes the lookup branch return null. *)
Lemma satellite_no_ephemeris (est : Estimate) (satIndex : nat)
    (pseudorange : double) (prn : string) :
  _pseudorange_C1C self !! satIndex = Some pseudorange ->
  PrimFloat.ltb pseudorange EPS = false ->
  _listSatPRN self !! satIndex = Some prn ->
  findCloseRecord navigationData (_receiverTime self) prn = None ->
  satellite self navigationData approxRecCoord est satIndex = Null NoEphemeris.
Proof.
  intros Hpr Heps Hprn Hnav. unfold satellite, at_.
  rewrite Hpr. simpl. rewrite Heps, Hprn. simpl. rewrite Hnav. reflexivity.
Qed.

Lemma assemble_no_ephemeris (est : Estimate) (satIndex : nat)
    (pseudorange : double) (prn : string) :
  _pseudorange_C1C self !! satIndex = Some pseudorange ->
  PrimFloat.ltb pseudorange EPS = false ->
  _listSatPRN self !! satIndex = Some prn ->
  findCloseRecord navigationData (_receiverTime self) prn = None ->
  assemble self navigationData approxRecCoord est = Null NoEphemeris
  \/ assemble self navigationData approxRecCoord est = Null InnerNotConverged.
Proof.
  intros Hpr Heps Hprn Hnav. unfold assemble.
  pose proof (lookup_lt_Some _ _ _ Hpr) as Hlpr.
  pose proof (lookup_lt_Some _ _ _ Hprn) as Hlprn.
  destruct (satelliteLoop_missing_ephemeris self approxRecCoord navigationData est
              (length (_listSatPRN self)) 0 satIndex
              (fresh (length (_listSatPRN self)))) as [H|H];
    [| lia | eapply satellite_no_ephemeris; eassumption
     | rewrite H; auto | rewrite H; auto].
  intros j Hj. split; apply lookup_lt_is_Some; lia.
Qed.

(** C2. Whenever a satellite of the epoch passes the missing-value test
    and the ephemeris lookup has no record for it at the receiver time,
    every outer pass returns null before any system is solved, and so does
    [computeReceiverPosition], whatever records the other satellites have:
    the null comes from the lookup (line 107) or from the transmission-time
    loop of an earlier satellite of the same pass (line 121). *)
Theorem missing_ephemeris_fails_epoch (satIndex : nat) (pseudorange : double)
    (prn : string) :
  _pseudorange_C1C self !! satIndex = Some pseudorange ->
  PrimFloat.ltb pseudorange EPS = false ->
  _listSatPRN self !! satIndex = Some prn ->
  findCloseRecord navigationData (_receiverTime self) prn = None ->
  (forall est,
     assemble self navigationData approxRecCoord est = Null NoEphemeris
     \/ assemble self navigationData approxRecCoord est = Null InnerNotConverged)
  /\ (computeReceiverPosition self navigationData approxRecCoord = Null NoEphemeris
      \/ computeReceiverPosition self navigationData approxRecCoord
         = Null InnerNotConverged).
Proof.
  intros Hpr Heps Hprn Hnav.
  split; [intros est; eapply assemble_no_ephemeris; eassumption|].
  unfold computeReceiverPosition.
  change (adjustLoop self navigationData approxRecCoord 100 (initial approxRecCoord))
    with (sys ← assemble self navigationData approxRecCoord (initial approxRecCoord);
          let solution := normalEquations sys in
          let est' := update (initial approxRecCoord) solution in
          if PrimFloat.ltb (norm (head3 solution)) ITER_TOL
          then Value (recCoord est')
          else adjustLoop self navigationData approxRecCoord 99 est').
  destruct (assemble_no_ephemeris (initial approxRecCoord) satIndex pseudorange prn
              Hpr Heps Hprn Hnav) as [H|H]; rewrite H; auto.
Qed.

End MissingEphemeris.

(** ** Missing pseudoranges *)

Section MissingPseudorange.
Context {env : Environment}.
Variable self : ObservationRecord.
Variable approxRecCoord : Coordinates.

Local Abbreviation agreeOnUsable := (agreeOnUsable self).

Lemma satellite_agree (nav1 nav2 : NavigationData) (est : Estimate) (satIndex : nat) :
  agreeOnUsable nav1 nav2 ->
  satellite self nav1 approxRecCoord est satIndex
  = satellite self nav2 approxRecCoord est satIndex.
Proof.
  intros Hagree. unfold satellite, at_.
  destruct (_pseudorange_C1C self !! satIndex) as [pr|] eqn:Hpr; [|reflexivity].
  simpl. destruct (PrimFloat.ltb pr EPS) eqn:Heps; [reflexivity|].
  destruct (_listSatPRN self !! satIndex) as [prn|] eqn:Hprn; [|reflexivity].
  simpl. rewrite (Hagree satIndex pr prn Hpr Heps Hprn). reflexivity.
Qed.

Lemma satelliteLoop_agree (nav1 nav2 : NavigationData) (est : Estimate)
    (indices : list nat) (b : Buffers) :
  agreeOnUsable nav1 nav2 ->
  satelliteLoop self nav1 approxRecCoord est indices b
  = satelliteLoop self nav2 approxRecCoord est indices b.
Proof.
  intros Hagree. revert b. induction indices as [|i indices IH]; intros b; simpl.
  - reflexivity.
  - rewrite (satellite_agree nav1 nav2 est i Hagree).
    destruct (satellite self nav2 approxRecCoord est i); simpl; auto.
Qed.

Lemma adjustLoop_agree (nav1 nav2 : NavigationData) (left : nat) (est : Estimate) :
  agreeOnUsable nav1 nav2 ->
  adjustLoop self nav1 approxRecCoord left est
  = adjustLoop self nav2 approxRecCoord left est.
Proof.
  intros Hagree. revert est. induction left as [|left IH]; intros est; simpl.
  - reflexivity.
  - unfold assemble. rewrite (satelliteLoop_agree nav1 nav2 est _ _ Hagree).
    destruct (satelliteLoop self nav2 approxRecCoord est _ _) as [b| |]; simpl; auto.
    destruct (compact _ b) as [sys| |]; simpl; auto.
    destruct (PrimFloat.ltb _ _); auto.
Qed.

(** C10. A satellite whose first pseudorange is below [EPS] is dropped
    before the ephemeris lookup: whatever the store holds, its turn in the
    loop yields no equation and only adds one to [countDisposed]; and the
    answer of [computeReceiverPosition] is the same for any two stores that
    agree on the satellites with a usable pseudorange, in particular when
    one of them has no record for the dropped satellite. *)
Theorem missing_pseudorange_skips_lookup (nav1 nav2 : NavigationData)
    (satIndex : nat) (pseudorange : double) :
  _pseudorange_C1C self !! satIndex = Some pseudorange ->
  PrimFloat.ltb pseudorange EPS = true ->
  agreeOnUsable nav1 nav2 ->
  (forall navigationData est b,
     satellite self navigationData approxRecCoord est satIndex = Value None
     /\ satelliteLoop self navigationData approxRecCoord est [satIndex] b
        = Value {| designMat := designMat b;
                   observableVec := observableVec b;
                   weightVec := weightVec b;
                   countDisposed := S (countDisposed b) |})
  /\ computeReceiverPosition self nav1 approxRecCoord
     = computeReceiverPosition self nav2 approxRecCoord.
Proof.
  intros Hpr Heps Hagree. split.
  - intros navigationData est b.
    assert (Hsat : satellite self navigationData approxRecCoord est satIndex
                   = Value None).
    { unfold satellite, at_. rewrite Hpr. simpl. rewrite Heps. reflexivity. }
    split; [exact Hsat|]. simpl. rewrite Hsat. reflexivity.
  - unfold computeReceiverPosition.
    rewrite (adjustLoop_agree nav1 nav2 100 _ Hagree). reflexivity.
Qed.

End MissingPseudorange.

(** ** Elevation mask, blunder test and the rows of the system *)

Section Filtering.
Context {env : Environment}.
Variable self : ObservationRecord.
Variable navigationData : NavigationData.
Variable approxRecCoord : Coordinates.
Variable est : Estimate.

Local Abbreviation satellite := (Solver.satellite self navigationData approxRecCoord est).
Local Abbreviation satelliteLoop := (Solver.satelliteLoop self navigationData approxRecCoord est).
Local Abbreviation assemble := (Solver.assemble self navigationData approxRecCoord est).
Local Abbreviation accepted := (accepted self navigationData approxRecCoord est).
Local Abbreviation located := (located self navigationData est).
Local Abbreviation others := (others self).

Lemma located_satellite (satIndex : nat) (closeRecord : NavigationRecord)
    (pseudorange satTimeF : double) (satCoord : Vector3d) :
  located satIndex closeRecord pseudorange satTimeF satCoord ->
  satellite satIndex
  = if PrimFloat.leb (satElevationOf approxRecCoord satCoord) CUTOFF_ELEVATION
    then Value None
    else if PrimFloat.ltb BLUNDER_PICKER
              (PrimFloat.abs (PrimFloat.sub (rhoOf est satCoord) pseudorange))
    then Value None
    else Value (Some (equationOf approxRecCoord est closeRecord pseudorange
                        satTimeF satCoord)).
Proof.
  intros (Hpr & Heps & (prn & Hprn & Hnav) & Hloop).
  unfold Solver.satellite, at_. rewrite Hpr. simpl. rewrite Heps, Hprn. simpl.
  rewrite Hnav. unfold observe. rewrite Hloop. reflexivity.
Qed.

Lemma located_lt (satIndex : nat) (closeRecord : NavigationRecord)
    (pseudorange satTimeF : double) (satCoord : Vector3d) :
  located satIndex closeRecord pseudorange satTimeF satCoord ->
  (satIndex < length (_listSatPRN self))%nat.
Proof.
  intros (_ & _ & (prn & Hprn & _) & _). exact (lookup_lt_Some _ _ _ Hprn).
Qed.

Lemma seq_split_at (n i : nat) :
  (i < n)%nat -> seq 0 n = seq 0 i ++ i :: seq (S i) (n - S i).
Proof.
  intros Hi. replace n with (i + S (n - S i))%nat at 1 by lia.
  rewrite seq_app. reflexivity.
Qed.

(** A disposed satellite leaves the accepted equations as they are
    without it. *)
Lemma accepted_without (satIndex : nat) :
  (satIndex < length (_listSatPRN self))%nat ->
  satellite satIndex = Value None ->
  accepted (seq 0 (length (_listSatPRN self))) = accepted (others satIndex).
Proof.
  intros Hlt Hsat. unfold others.
  rewrite (seq_split_at _ satIndex Hlt), !accepted_app. simpl.
  rewrite Hsat. reflexivity.
Qed.

(** An accepted satellite sits right after the equations accepted before
    it. *)
Lemma accepted_at (satIndex : nat) (e : Equation) :
  (satIndex < length (_listSatPRN self))%nat ->
  satellite satIndex = Value (Some e) ->
  accepted (seq 0 (length (_listSatPRN self)))
    !! length (accepted (seq 0 satIndex)) = Some e.
Proof.
  intros Hlt Hsat.
  rewrite (seq_split_at _ satIndex Hlt), accepted_app. simpl. rewrite Hsat.
  rewrite lookup_app_r by lia. rewrite Nat.sub_diag. reflexivity.
Qed.

Lemma disposed_step (satIndex : nat) (b : Buffers) :
  satellite satIndex = Value None ->
  satelliteLoop [satIndex] b
  = Value {| designMat := designMat b;
             observableVec := observableVec b;
             weightVec := weightVec b;
             countDisposed := S (countDisposed b) |}.
Proof. intros Hsat. simpl. rewrite Hsat. reflexivity. Qed.

(** C4. In any outer pass, a satellite whose elevation, taken in the
    North-East-Up frame centred on the fixed input [approxRecCoord], is at
    most [CUTOFF_ELEVATION] yields no equation: its turn in the loop leaves
    the three buffers as they are and adds one to [countDisposed], and the
    system of the pass is built from the other satellites alone. *)
Theorem low_elevation_contributes_no_row (satIndex : nat)
    (closeRecord : NavigationRecord) (pseudorange satTimeF : double)
    (satCoord : Vector3d) :
  located satIndex closeRecord pseudorange satTimeF satCoord ->
  (let satCoordNEU := toNEU (Coordinates_vec satCoord) approxRecCoord in
   PrimFloat.leb (asin (PrimFloat.div (vz satCoordNEU) (norm satCoordNEU)))
     (PrimFloat.mul (PrimFloat.div 10 180) PI) = true) ->
  satellite satIndex = Value None
  /\ (forall b, satelliteLoop [satIndex] b
                = Value {| designMat := designMat b;
                           observableVec := observableVec b;
                           weightVec := weightVec b;
                           countDisposed := S (countDisposed b) |})
  /\ (forall sys, assemble = Value sys ->
        sysDesign sys = map eqRow (accepted (others satIndex))
        /\ sysObservable sys = map eqObservable (accepted (others satIndex))
        /\ sysWeight sys = map eqWeight (accepted (others satIndex))).
Proof.
  intros Hloc Hlow.
  assert (Hsat : satellite satIndex = Value None).
  { rewrite (located_satellite _ _ _ _ _ Hloc).
    unfold satElevationOf, CUTOFF_ELEVATION. cbv zeta in Hlow. rewrite Hlow.
    reflexivity. }
  split; [exact Hsat|]. split; [intros b; apply disposed_step; exact Hsat|].
  intros sys Hsys.
  rewrite <- (accepted_without satIndex (located_lt _ _ _ _ _ Hloc) Hsat).
  exact (assemble_accepted self navigationData approxRecCoord est sys Hsys).
Qed.

(** C5. In any outer pass, a satellite whose geometric range from the
    current estimate to its rotated position differs from the raw
    pseudorange by more than [BLUNDER_PICKER] yields no equation.  Whatever
    excluded a satellite (a missing pseudorange, a low elevation or a
    blunder), the equations kept are those of the other satellites in
    their order; and the design matrix, observation vector and weight
    vector handed to the solve hold exactly the equations of the accepted
    satellites, in satellite order from row 0: each accepted satellite sits
    at the row numbered by the satellites accepted before it. *)
Theorem blunder_excluded_and_rows_in_order :
  (forall (satIndex : nat) (closeRecord : NavigationRecord)
          (pseudorange satTimeF : double) (satCoord : Vector3d),
     located satIndex closeRecord pseudorange satTimeF satCoord ->
     PrimFloat.ltb 0.5E6
       (PrimFloat.abs (PrimFloat.sub (norm (vsub (recCoord est) satCoord)) pseudorange))
     = true ->
     satellite satIndex = Value None)
  /\ (forall satIndex : nat,
        (satIndex < length (_listSatPRN self))%nat ->
        satellite satIndex = Value None ->
        accepted (seq 0 (length (_listSatPRN self))) = accepted (others satIndex))
  /\ (forall sys : LinearSystem,
        assemble = Value sys ->
        let eqs := accepted (seq 0 (length (_listSatPRN self))) in
        sysDesign sys = map eqRow eqs
        /\ sysObservable sys = map eqObservable eqs
        /\ sysWeight sys = map eqWeight eqs
        /\ forall (satIndex : nat) (e : Equation),
             (satIndex < length (_listSatPRN self))%nat ->
             satellite satIndex = Value (Some e) ->
             let row := length (accepted (seq 0 satIndex)) in
             sysDesign sys !! row = Some (eqRow e)
             /\ sysObservable sys !! row = Some (eqObservable e)
             /\ sysWeight sys !! row = Some (eqWeight e)).
Proof.
  split; [|split].
  - intros satIndex closeRecord pseudorange satTimeF satCoord Hloc Hblunder.
    rewrite (located_satellite _ _ _ _ _ Hloc).
    unfold rhoOf, BLUNDER_PICKER. rewrite Hblunder.
    destruct (PrimFloat.leb _ _); reflexivity.
  - intros satIndex Hlt Hsat. exact (accepted_without satIndex Hlt Hsat).
  - intros sys Hsys eqs.
    destruct (assemble_accepted self navigationData approxRecCoord est sys Hsys)
      as (HA & Hb & Hw).
    fold eqs in HA, Hb, Hw.
    split; [exact HA|]. split; [exact Hb|]. split; [exact Hw|].
    intros satIndex e Hlt Hsat row.
    pose proof (accepted_at satIndex e Hlt Hsat) as Hrow.
    fold eqs row in Hrow.
    rewrite HA, Hb, Hw, !list_lookup_fmap, Hrow. simpl. auto.
Qed.

(** C7. For a satellite accepted in an outer pass, the row it occupies in
    the system (the number of satellites accepted before it) holds the
    components of (receiver estimate - satellite) divided by the range,
    followed by 1; the observation is pseudorange - range + c * clock
    correction with the correction [a0 + a1 * dt + a2 * pow(dt, 2)],
    [dt = satTimeF - Toc]; the weight is [pow(sin(elevation), 2)]. *)
Theorem accepted_row_contents (satIndex : nat)
    (closeRecord : NavigationRecord) (pseudorange satTimeF : double)
    (satCoord : Vector3d) (sys : LinearSystem) :
  located satIndex closeRecord pseudorange satTimeF satCoord ->
  let satCoordNEU := toNEU (Coordinates_vec satCoord) approxRecCoord in
  let satElevation := asin (PrimFloat.div (vz satCoordNEU) (norm satCoordNEU)) in
  let rho := norm (vsub (recCoord est) satCoord) in
  let dt := PrimFloat.sub satTimeF (GpsWeekSecond_second (_Toc closeRecord)) in
  let satClockError :=
    (_a0 closeRecord + _a1 closeRecord * dt + _a2 closeRecord * pow dt 2)%float in
  PrimFloat.leb satElevation CUTOFF_ELEVATION = false ->
  PrimFloat.ltb BLUNDER_PICKER (PrimFloat.abs (PrimFloat.sub rho pseudorange)) = false ->
  assemble = Value sys ->
  let row := length (accepted (seq 0 satIndex)) in
  sysDesign sys !! row
  = Some [ ((vx (recCoord est) - vx satCoord) / rho)%float;
           ((vy (recCoord est) - vy satCoord) / rho)%float;
           ((vz (recCoord est) - vz satCoord) / rho)%float;
           1%float ]
  /\ sysObservable sys !! row
     = Some (pseudorange - rho + Reference_c * satClockError)%float
  /\ sysWeight sys !! row = Some (pow (sin satElevation) 2%float).
Proof.
  intros Hloc neu elev rho dt clk Hhigh Hclose Hsys row.
  assert (Hsat : satellite satIndex
                 = Value (Some (equationOf approxRecCoord est closeRecord
                                  pseudorange satTimeF satCoord))).
  { rewrite (located_satellite _ _ _ _ _ Hloc).
    unfold satElevationOf, rhoOf. fold neu elev rho.
    rewrite Hhigh, Hclose. reflexivity. }
  destruct (assemble_accepted self navigationData approxRecCoord est sys Hsys)
    as (HA & Hb & Hw).
  pose proof (accepted_at satIndex _ (located_lt _ _ _ _ _ Hloc) Hsat) as Hrow.
  fold row in Hrow.
  rewrite HA, Hb, Hw, !list_lookup_fmap, Hrow. simpl. auto.
Qed.

End Filtering.

(** ** The transmission-time iteration *)

Section LightTime.
Context {env : Environment}.
Variable self : ObservationRecord.
Variable est : Estimate.
Variable closeRecord : NavigationRecord.
Variable pseudorange : double.

Local Abbreviation transmit := (Solver.transmit self est closeRecord pseudorange).
Local Abbreviation transmissionLoop :=
  (Solver.transmissionLoop self est closeRecord pseudorange).
Local Abbreviation delayAt := (delayAt self est closeRecord pseudorange).
Local Abbreviation satTimeAt := (satTimeAt self est closeRecord pseudorange).
Local Abbreviation satCoordAt := (satCoordAt self est closeRecord pseudorange).
Local Abbreviation satTimeBefore := (satTimeBefore self est closeRecord pseudorange).
Local Abbreviation changeAt := (changeAt self est closeRecord pseudorange).

Lemma transmissionLoop_from (left k : nat) :
  transmissionLoop left (satTimeBefore k) (delayAt k)
  = match firstMeeting (fun j => PrimFloat.leb (changeAt j) ITER_TOL) k left with
    | Some j => Some (satTimeAt j, satCoordAt j)
    | None => None
    end.
Proof.
  revert k. induction left as [|left IH]; intros k; [reflexivity|].
  unfold firstMeeting in *. simpl.
  unfold changeAt at 1, satTimeAt at 1.
  destruct (transmit (delayAt k)) as [t sc] eqn:Ht. simpl.
  destruct (PrimFloat.leb _ ITER_TOL).
  - unfold satTimeAt, satCoordAt. rewrite Ht. reflexivity.
  - rewrite <- IH. simpl. unfold satTimeAt, nextDelay. rewrite Ht. reflexivity.
Qed.

Lemma firstMeeting_none (test : nat -> bool) (k count : nat) :
  (forall j, (k <= j < k + count)%nat -> test j = false) ->
  firstMeeting test k count = None.
Proof.
  unfold firstMeeting. revert k.
  induction count as [|count IH]; intros k Hall; [reflexivity|]. simpl.
  rewrite (Hall k) by lia. apply IH. intros j Hj. apply Hall. lia.
Qed.


(** The first body is compared with the initial 0 of line 117: when its
    transmission time is within the tolerance of 0 the loop ends there,
    whatever the satellite does, and the seed delay is never re-estimated. *)
Lemma transmissionLoop_first_body :
  PrimFloat.leb (PrimFloat.abs (PrimFloat.sub (satTimeAt 0) 0)) ITER_TOL = true ->
  transmissionLoop 100 0%float 0.075%float = Some (satTimeAt 0, satCoordAt 0).
Proof.
  intros Hmeet. pose proof (transmissionLoop_from 100 0) as Hloop.
  cbn [satTimeBefore delayAt] in Hloop. rewrite Hloop.
  unfold firstMeeting. cbn [seq List.find].
  unfold changeAt at 1. cbn [satTimeBefore]. rewrite Hmeet. reflexivity.
Qed.


(** The loop gives up exactly when none of its 100 bodies meets the
    tolerance. *)
Lemma transmissionLoop_exhausted :
  (forall k, (k < 100)%nat -> PrimFloat.leb (changeAt k) ITER_TOL = false) ->
  transmissionLoop 100 0%float 0.075%float = None.
Proof.
  intros Hall. pose proof (transmissionLoop_from 100 0) as Hloop.
  cbn [satTimeBefore delayAt] in Hloop.
  rewrite Hloop, firstMeeting_none; [reflexivity|].
  intros j Hj. apply Hall. lia.
Qed.

End LightTime.

(** ** The outer iteration *)

Section Adjustment.
Context {env : Environment}.
Variable self : ObservationRecord.
Variable navigationData : NavigationData.
Variable approxRecCoord : Coordinates.

Local Abbreviation satellite := (Solver.satellite self navigationData approxRecCoord).
Local Abbreviation assemble := (Solver.assemble self navigationData approxRecCoord).
Local Abbreviation adjustLoop := (Solver.adjustLoop self navigationData approxRecCoord).
Local Abbreviation computeReceiverPosition :=
  (Solver.computeReceiverPosition self navigationData approxRecCoord).
Local Abbreviation pass := (pass self navigationData approxRecCoord).
Local Abbreviation passes := (passes self navigationData approxRecCoord).
Local Abbreviation outerExhausted := (outerExhausted self navigationData approxRecCoord).
Local Abbreviation innerExhausted := (innerExhausted self navigationData approxRecCoord).

Lemma adjustLoop_passes (k left : nat) (est est' : Estimate) :
  passes k est = Some est' ->
  adjustLoop (k + left) est = adjustLoop left est'.
Proof.
  revert est. induction k as [|k IH]; intros est Hk; simpl in *.
  - congruence.
  - unfold pass in Hk.
    destruct (assemble est) as [sys| |]; simpl; try discriminate.
    destruct (PrimFloat.ltb _ ITER_TOL); [discriminate|].
    apply IH. exact Hk.
Qed.

Lemma adjustLoop_null_pass (left : nat) (est : Estimate) (site : ReturnSite) :
  assemble est = Null site -> adjustLoop (S left) est = Null site.
Proof. intros H. simpl. rewrite H. reflexivity. Qed.

Lemma outerExhausted_null :
  outerExhausted -> computeReceiverPosition = Null OuterNotConverged.
Proof.
  intros [est Hest]. unfold Solver.computeReceiverPosition.
  pose proof (adjustLoop_passes 100 0 _ est Hest) as Hloop.
  change (100 + 0)%nat with 100%nat in Hloop. rewrite Hloop. reflexivity.
Qed.

Lemma innerExhausted_null :
  innerExhausted -> computeReceiverPosition = Null InnerNotConverged.
Proof.
  intros (p & est & satIndex & pr & prn & rec & Hp & Hpasses & Hbefore
          & Hpr & Heps & Hprn & Hnav & Hnever).
  unfold Solver.computeReceiverPosition.
  replace 100%nat with (p + S (99 - p))%nat by lia.
  rewrite (adjustLoop_passes p _ _ est Hpasses).
  rewrite (adjustLoop_null_pass _ est InnerNotConverged); [reflexivity|].
  unfold Solver.assemble.
  pose proof (lookup_lt_Some _ _ _ Hprn) as Hlt.
  rewrite (seq_split_at _ satIndex Hlt).
  rewrite (satelliteLoop_first_failure self approxRecCoord navigationData est
             _ _ satIndex _ InnerNotConverged); [reflexivity| |].
  - intros i Hi. apply Hbefore. apply in_seq in Hi. lia.
  - unfold Solver.satellite, at_. rewrite Hpr. simpl. rewrite Heps, Hprn. simpl.
    rewrite Hnav. unfold observe.
    rewrite (transmissionLoop_exhausted self est rec pr Hnever). reflexivity.
Qed.

(** C3. If the outer loop runs its 100 passes without the norm of the
    3-component correction dropping below [ITER_TOL], or the
    transmission-time loop of a satellite runs its 100 bodies without
    meeting [ITER_TOL], [computeReceiverPosition] returns the null pointer
    (from line 87, respectively line 121) and no estimate. *)
Theorem iteration_caps_return_null :
  outerExhausted \/ innerExhausted ->
  isNull computeReceiverPosition = true
  /\ (outerExhausted -> computeReceiverPosition = Null OuterNotConverged)
  /\ (innerExhausted -> computeReceiverPosition = Null InnerNotConverged).
Proof.
  intros H. split; [|split; [apply outerExhausted_null|apply innerExhausted_null]].
  destruct H as [H|H];
    [rewrite (outerExhausted_null H)|rewrite (innerExhausted_null H)]; reflexivity.
Qed.

(** C8. In an outer pass that assembles a system, the solution of the
    weighted normal equations is used as follows: its first three
    components are added to the receiver estimate, and its fourth divided
    by the speed of light is the clock offset of the next pass, the former
    offset playing no part in the new one. *)
Theorem solution_updates_estimate (left : nat) (est : Estimate) (sys : LinearSystem) :
  assemble est = Value sys ->
  let solution := normalEquations sys in
  let next :=
    {| recCoord := V3 (vx (recCoord est) + s0 solution)%float
                      (vy (recCoord est) + s1 solution)%float
                      (vz (recCoord est) + s2 solution)%float;
       recClockError := (s3 solution / Reference_c)%float |} in
  adjustLoop (S left) est
  = (if PrimFloat.ltb (norm (head3 solution)) ITER_TOL
     then Value (recCoord next)
     else adjustLoop left next)
  /\ (PrimFloat.ltb (norm (head3 solution)) ITER_TOL = false -> pass est = Some next)
  /\ (forall offset,
        update {| recCoord := recCoord est; recClockError := offset |} solution = next).
Proof.
  intros Hsys solution next. unfold pass. simpl. rewrite Hsys. simpl.
  fold solution. change (update est solution) with next.
  split; [reflexivity|]. split; [|reflexivity].
  intros ->. reflexivity.
Qed.

(** With no stored satellite the pass skips the size test and hands an
    empty system to the solve. *)
Lemma empty_epoch_assembles (t : DateTime) (flag sum : Z)
    (c1c c2p l1c l2p : list double) (est : Estimate) :
  Solver.assemble (mkObservationRecord t flag sum [] c1c c2p l1c l2p)
    navigationData approxRecCoord est
  = Value {| sysDesign := []; sysObservable := []; sysWeight := [] |}.
Proof. reflexivity. Qed.

End Adjustment.

(** ** The size test of line 165 *)

Section Starvation.
Context {env : Environment}.

(** The test is made only inside [if (countDisposed > 0)]. *)
Lemma compact_after_disposal (n : nat) (b : Buffers) :
  (0 < countDisposed b)%nat -> (n - countDisposed b < 4)%nat ->
  compact n b = Null NotEnoughObservations.
Proof.
  intros Hpos Hfew. unfold compact.
  apply Nat.ltb_lt in Hpos. apply Nat.ltb_lt in Hfew.
  rewrite Hpos, Hfew. reflexivity.
Qed.

Lemma compact_without_disposal (n : nat) (b : Buffers) :
  countDisposed b = 0%nat ->
  compact n b = Value {| sysDesign := designMat b;
                         sysObservable := observableVec b;
                         sysWeight := weightVec b |}.
Proof. intros Hzero. unfold compact. rewrite Hzero. reflexivity. Qed.

Lemma satelliteLoop_all_accepted (self : ObservationRecord)
    (navigationData : NavigationData) (approxRecCoord : Coordinates) (est : Estimate)
    (indices : list nat) (b : Buffers) :
  (forall i, In i indices ->
     exists e, satellite self navigationData approxRecCoord est i = Value (Some e)) ->
  exists b', satelliteLoop self navigationData approxRecCoord est indices b = Value b'
             /\ countDisposed b' = countDisposed b.
Proof.
  revert b. induction indices as [|i indices IH]; intros b Hall; simpl.
  - eauto.
  - destruct (Hall i) as [e He]; [left; reflexivity|]. rewrite He. simpl.
    destruct (IH (store i b (Some e))) as (b' & Hrun & Hcount).
    { intros j Hj. apply Hall. right. exact Hj. }
    exists b'. split; [exact Hrun|]. rewrite Hcount. reflexivity.
Qed.

(** When every satellite of the epoch is accepted the pass hands all its
    rows to the solve, however few they are: the size test is not made. *)
Lemma all_accepted_reach_the_solve (self : ObservationRecord)
    (navigationData : NavigationData) (approxRecCoord : Coordinates) (est : Estimate) :
  (forall i, (i < length (_listSatPRN self))%nat ->
     exists e, satellite self navigationData approxRecCoord est i = Value (Some e)) ->
  exists sys, assemble self navigationData approxRecCoord est = Value sys
              /\ length (sysDesign sys) = length (_listSatPRN self).
Proof.
  intros Hall. unfold assemble.
  set (n := length (_listSatPRN self)) in *.
  destruct (satelliteLoop_all_accepted self navigationData approxRecCoord est
              (seq 0 n) (fresh n)) as (b & Hrun & Hcount).
  { intros i Hi. apply Hall. apply in_seq in Hi. lia. }
  rewrite Hrun. simpl in Hcount |- *.
  rewrite (compact_without_disposal n b Hcount).
  eexists. split; [reflexivity|]. simpl.
  pose proof (satelliteLoop_Filled self navigationData approxRecCoord est n n 0
                (fresh n) b ltac:(lia) (Filled_fresh n) Hrun) as [Hc [ra [Ha Hla]] _ _].
  rewrite Ha, length_app, length_map. lia.
Qed.

(** C1 (the program departs from it). For an epoch record without any
    stored satellite, hence with fewer than 4 usable ones,
    [computeReceiverPosition] returns a coordinate: nothing is disposed, so
    the size test of line 165 is not reached, the products over the empty
    system give a zero solution whatever [inverse] returns, and the first
    pass ends the loop with the approximate coordinate plus zero. *)
Theorem empty_epoch_returns_coordinates (t : DateTime) (flag sum : Z)
    (c1c c2p l1c l2p : list double) (navigationData : NavigationData)
    (approxRecCoord : Coordinates) :
  computeReceiverPosition (mkObservationRecord t flag sum [] c1c c2p l1c l2p)
    navigationData approxRecCoord
  = Value (Coordinates_vec
             (V3 (vx (toXYZ approxRecCoord) + 0)%float
                 (vy (toXYZ approxRecCoord) + 0)%float
                 (vz (toXYZ approxRecCoord) + 0)%float)).
Proof. reflexivity. Qed.

End Starvation.

(** ** The transmission-time iteration of a satellite *)

Section LightTimeOfSatellite.
Context {env : Environment}.
Variable self : ObservationRecord.
Variable navigationData : NavigationData.
Variable approxRecCoord : Coordinates.
Variable est : Estimate.


End LightTimeOfSatellite.

(** ** The records built by the reader *)

Section Records.
Context {env : Environment}.

Lemma Run_bind_Finished {A B : Type} (r : Run A) (k : A -> Run B) (b : B) :
  r ≫= k = Finished b -> exists a, r = Finished a /\ k a = Finished b.
Proof. destruct r as [a| |]; simpl; [eauto|discriminate..]. Qed.

Lemma raising_Finished {A : Type} (o : option A) (a : A) :
  raising o = Finished a -> o = Some a.
Proof. destruct o; simpl; congruence. Qed.

Lemma substr_system (line : string) (prn : string) :
  substr line 0 1 = Some "G"%string -> substr line 0 3 = Some prn ->
  exists number, prn = String "G" number.
Proof.
  unfold substr. simpl. intros Hg Hprn.
  destruct line as [|ch line]; simpl in *; [discriminate|].
  destruct line; simpl in *; inversion Hg; subst; inversion Hprn; eauto.
Qed.

Lemma pushSatellite_Retained (line : string) (record record' : ObservationRecord) :
  substr line 0 1 = Some "G"%string ->
  pushSatellite line record = Finished record' ->
  Retained record ->
  Retained record'
  /\ _sumSat record' = _sumSat record
  /\ length (_listSatPRN record') = S (length (_listSatPRN record)).
Proof.
  intros Hg Hpush [H1 H2 H3 H4 HG]. unfold pushSatellite in Hpush.
  destruct (substr line 0 3) as [prn|] eqn:Hprn; simpl in Hpush; [|discriminate].
  destruct (substr line 3 14); simpl in Hpush; [|discriminate].
  destruct (substr line 19 14); simpl in Hpush; [|discriminate].
  destruct (substr line 51 14); simpl in Hpush; [|discriminate].
  destruct (substr line 67 14); simpl in Hpush; [|discriminate].
  inversion Hpush; subst record'; clear Hpush.
  split; [|split; [reflexivity|simpl; rewrite length_app; simpl; lia]].
  split; simpl; rewrite ?length_app; simpl; try lia.
  apply Forall_app. split; [exact HG|].
  constructor; [|constructor]. exact (substr_system line prn Hg Hprn).
Qed.

Lemma readSatellites_turn (count : nat) (file : ifstream) (line : string)
    (record : ObservationRecord) :
  readSatellites (S count) file line record
  = (let '(file, line) := getline file line in
     system ← raising (substr line 0 1);
     if negb (String.eqb system "G") then readSatellites count file line record
     else
       record ← pushSatellite line record;
       readSatellites count file line record).
Proof. reflexivity. Qed.

Lemma readSatellites_Retained (count : nat) (file file' : ifstream)
    (line line' : string) (record record' : ObservationRecord) :
  readSatellites count file line record = Finished (file', line', record') ->
  Retained record ->
  Retained record'
  /\ _sumSat record' = _sumSat record
  /\ (length (_listSatPRN record') <= length (_listSatPRN record) + count)%nat.
Proof.
  revert file line record.
  induction count as [|count IH]; intros file line record Hrun Hret.
  - simpl in Hrun. inversion Hrun; subst. split; [exact Hret|]. split; [reflexivity|lia].
  - rewrite readSatellites_turn in Hrun.
    destruct (getline file line) as [file1 line1].
    destruct (substr line1 0 1) as [system|] eqn:Hsys; [|discriminate].
    unfold raising, mbind, Run_bind in Hrun.
    destruct (String.eqb system "G") eqn:Hg; unfold negb in Hrun.
    + apply String.eqb_eq in Hg. subst system.
      destruct (pushSatellite line1 record) as [record1| |] eqn:Hpush;
        try discriminate.
      destruct (pushSatellite_Retained line1 record record1 Hsys Hpush Hret)
        as (Hret1 & Hsum1 & Hlen1).
      destruct (IH _ _ _ Hrun Hret1) as (Hret' & Hsum' & Hlen').
      split; [exact Hret'|]. split; [congruence|lia].
    + destruct (IH _ _ _ Hrun Hret) as (Hret' & Hsum' & Hlen').
      split; [exact Hret'|]. split; [exact Hsum'|lia].
Qed.

Lemma readEpochLine_Retained (line : string) (record : ObservationRecord) :
  readEpochLine line = Finished record ->
  Retained record /\ _listSatPRN record = [].
Proof.
  unfold readEpochLine. intros Hrun.
  repeat (match type of Hrun with
          | context [raising ?o] => destruct o; simpl in Hrun; [|discriminate]
          end).
  inversion Hrun; subst record. split; [|reflexivity].
  split; simpl; auto.
Qed.

Lemma readRecords_Stored (steps : nat) (file : ifstream) (line : string)
    (records records' : list ObservationRecord) :
  readRecords steps file line records = Finished records' ->
  Forall Stored records -> Forall Stored records'.
Proof.
  revert file line records.
  induction steps as [|steps IH]; intros file line records Hrun Hall; simpl in Hrun.
  - destruct (eofbit file); [|discriminate]. inversion Hrun; subst. exact Hall.
  - destruct (eofbit file); [inversion Hrun; subst; exact Hall|].
    destruct (getline file line) as [file1 line1].
    destruct (String.eqb line1 ""); [inversion Hrun; subst; exact Hall|].
    destruct (readEpochLine line1) as [record| |] eqn:Hepoch; simpl in Hrun;
      try discriminate.
    destruct (readSatellites _ file1 line1 record) as [[[file2 line2] record2]| |]
      eqn:Hsats; simpl in Hrun; try discriminate.
    apply (IH _ _ _ Hrun). apply Forall_app. split; [exact Hall|].
    constructor; [|constructor].
    destruct (readEpochLine_Retained _ _ Hepoch) as [Hret Hnil].
    destruct (readSatellites_Retained _ _ _ _ _ _ _ Hsats Hret) as (Hret2 & Hsum & Hlen).
    split; [exact Hret2|]. rewrite Hnil in Hlen. simpl in Hlen. rewrite Hsum. exact Hlen.
Qed.

(** C9. In every record stored by the constructor the identifiers, the two
    pseudorange and the two phase sequences have the same length, every
    retained identifier comes from a line whose first character is G, and
    the number retained is at most the declared satellite count (lines of
    other systems are skipped, so it can be smaller). *)
Theorem stored_records_parallel (filePath : string) (data : ObservationData)
    (record : ObservationRecord) :
  ObservationData_of filePath = Finished data ->
  In record (_observationRecords data) ->
  length (_pseudorange_C1C record) = length (_listSatPRN record)
  /\ length (_pseudorange_C2P record) = length (_listSatPRN record)
  /\ length (_phase_L1C record) = length (_listSatPRN record)
  /\ length (_phase_L2P record) = length (_listSatPRN record)
  /\ Forall (fun prn => exists number, prn = String "G" number) (_listSatPRN record)
  /\ (length (_listSatPRN record) <= Z.to_nat (_sumSat record))%nat.
Proof.
  intros Hrun Hin.
  assert (Hall : Forall Stored (_observationRecords data)).
  { unfold ObservationData_of in Hrun.
    apply Run_bind_Finished in Hrun as (rinexType & _ & Hrun).
    destruct (negb (String.eqb rinexType "o") && negb (String.eqb rinexType "O")).
    { inversion Hrun; subst. constructor. }
    destruct (ifstream_open filePath) as [content|].
    2: { inversion Hrun; subst. constructor. }
    apply Run_bind_Finished in Hrun as ([[file line] header] & _ & Hrun).
    apply Run_bind_Finished in Hrun as (records & Hrecords & Hrun).
    inversion Hrun; subst data.
    simpl. apply (readRecords_Stored _ _ _ _ _ Hrecords). constructor. }
  rewrite Forall_forall in Hall.
  destruct (Hall record) as [[H1 H2 H3 H4 HG] Hle].
  { apply list_elem_of_In. exact Hin. }
  auto 10.
Qed.

End Records.

(** ** The reader always ends *)

Section ReaderEnds.
Context {env : Environment}.

Lemma untilNewline_rest (s l rest : string) :
  untilNewline s = (l, Some rest) -> (String.length rest < String.length s)%nat.
Proof.
  revert l. induction s as [|ch s IH]; intros l Hs; simpl in *; [discriminate|].
  destruct (Ascii.eqb ch newline).
  - inversion Hs; subst. lia.
  - destruct (untilNewline s) as [l' r]. inversion Hs; subst.
    specialize (IH _ eq_refl). lia.
Qed.

Lemma getline_advanced (file : ifstream) (line : string) :
  sound file ->
  advanced file (fst (getline file line))
  /\ (eofbit file = false -> eofbit (fst (getline file line)) = false ->
      (String.length (pending (fst (getline file line)))
       < String.length (pending file))%nat).
Proof.
  intros Hsound. unfold getline.
  destruct (eofbit file) eqn:Heof; simpl.
  - split; [|discriminate]. split; unfold sound; simpl; auto.
  - rewrite (Hsound Heof).
    destruct (untilNewline (pending file)) as [l [rest|]] eqn:Huntil; simpl.
    + pose proof (untilNewline_rest _ _ _ Huntil).
      split; [|auto]. split; unfold sound; simpl; auto; try lia; congruence.
    + split; [|discriminate]. split; unfold sound; simpl; auto; try lia; congruence.
Qed.

Lemma advanced_refl (file : ifstream) : sound file -> advanced file file.
Proof. intros H. split; auto. Qed.

Lemma advanced_trans (f1 f2 f3 : ifstream) :
  advanced f1 f2 -> advanced f2 f3 -> advanced f1 f3.
Proof. intros [S1 P1 E1] [S2 P2 E2]. split; auto. lia. Qed.

Lemma enough_after_getline (steps : nat) (file file' : ifstream) (line : string) :
  sound file -> eofbit file = false -> enough (S steps) file ->
  advanced (fst (getline file line)) file' -> enough steps file'.
Proof.
  intros Hsound Heof [Henough|Henough] [S' P' E']; [congruence|].
  destruct (getline_advanced file line Hsound) as [_ Hless].
  destruct (eofbit (fst (getline file line))) eqn:Heof'.
  - left. auto.
  - right. specialize (Hless Heof eq_refl). lia.
Qed.

Lemma readHeader_ends (steps : nat) (file : ifstream) (line : string)
    (header : ObservationHeader) :
  sound file -> enough steps file ->
  readHeader steps file line header <> Starved
  /\ (forall file' line' header',
        readHeader steps file line header = Finished (file', line', header') ->
        advanced file file').
Proof.
  revert file line header.
  induction steps as [|steps IH]; intros file line header Hsound Henough; simpl.
  - destruct (eofbit file) eqn:Heof.
    + split; [discriminate|]. intros ? ? ? H. inversion H; subst.
      apply advanced_refl. exact Hsound.
    + destruct Henough; [congruence|lia].
  - destruct (eofbit file) eqn:Heof.
    { split; [discriminate|]. intros ? ? ? H. inversion H; subst.
      apply advanced_refl. exact Hsound. }
    destruct (getline_advanced file line Hsound) as [Hadv _].
    pose proof (enough_after_getline steps file _ line Hsound Heof Henough
                  (advanced_refl _ (advanced_sound _ _ Hadv))) as Hnext.
    destruct (getline file line) as [file1 line1]. simpl in Hadv, Hnext.
    assert (Hrec : forall h,
              readHeader steps file1 line1 h <> Starved
              /\ (forall file' line' header',
                    readHeader steps file1 line1 h = Finished (file', line', header') ->
                    advanced file file')).
    { intros h. destruct (IH file1 line1 h (advanced_sound _ _ Hadv) Hnext) as [H1 H2].
      split; [exact H1|]. intros ? ? ? H. eapply advanced_trans; eauto. }
    destruct (substr line1 60 13) as [tag|]; simpl; [|split; discriminate].
    destruct (String.eqb tag "END OF HEADER").
    { split; [discriminate|]. intros ? ? ? H. inversion H; subst. exact Hadv. }
    destruct (substr line1 60 19) as [tag'|]; simpl; [|split; discriminate].
    destruct (String.eqb tag' "APPROX POSITION XYZ"); [|apply Hrec].
    destruct (substr line1 1 13); simpl; [|split; discriminate].
    destruct (substr line1 15 13); simpl; [|split; discriminate].
    destruct (substr line1 29 13); simpl; [|split; discriminate].
    apply Hrec.
Qed.

Lemma pushSatellite_ends (line : string) (record : ObservationRecord) :
  pushSatellite line record <> Starved.
Proof.
  unfold pushSatellite.
  repeat (match goal with
          | |- context [raising ?o] => destruct o; simpl; [|discriminate]
          end).
  discriminate.
Qed.

Lemma readSatellites_ends (count : nat) (file : ifstream) (line : string)
    (record : ObservationRecord) :
  sound file ->
  readSatellites count file line record <> Starved
  /\ (forall file' line' record',
        readSatellites count file line record = Finished (file', line', record') ->
        advanced file file').
Proof.
  revert file line record.
  induction count as [|count IH]; intros file line record Hsound.
  - simpl. split; [discriminate|]. intros ? ? ? H. inversion H; subst.
    apply advanced_refl. exact Hsound.
  - rewrite readSatellites_turn.
    destruct (getline_advanced file line Hsound) as [Hadv _].
    destruct (getline file line) as [file1 line1]. simpl in Hadv.
    assert (Hrec : forall r,
              readSatellites count file1 line1 r <> Starved
              /\ (forall file' line' record',
                    readSatellites count file1 line1 r = Finished (file', line', record') ->
                    advanced file file')).
    { intros r. destruct (IH file1 line1 r (advanced_sound _ _ Hadv)) as [H1 H2].
      split; [exact H1|]. intros ? ? ? H. eapply advanced_trans; eauto. }
    destruct (substr line1 0 1) as [system|]; [|split; discriminate].
    unfold raising, mbind, Run_bind.
    destruct (negb (String.eqb system "G")); [apply Hrec|].
    pose proof (pushSatellite_ends line1 record) as Hpush.
    destruct (pushSatellite line1 record) as [record1| |];
      [apply Hrec|split; discriminate|congruence].
Qed.

Lemma readEpochLine_ends (line : string) : readEpochLine line <> Starved.
Proof.
  unfold readEpochLine.
  repeat (match goal with
          | |- context [raising ?o] => destruct o; simpl; [|discriminate]
          end).
  discriminate.
Qed.

Lemma readRecords_ends (steps : nat) (file : ifstream) (line : string)
    (records : list ObservationRecord) :
  sound file -> enough steps file ->
  readRecords steps file line records <> Starved.
Proof.
  revert file line records.
  induction steps as [|steps IH]; intros file line records Hsound Henough; simpl.
  - destruct (eofbit file) eqn:Heof; [discriminate|].
    destruct Henough; [congruence|lia].
  - destruct (eofbit file) eqn:Heof; [discriminate|].
    destruct (getline_advanced file line Hsound) as [Hadv _].
    pose proof (enough_after_getline steps file) as Hnext.
    specialize (Hnext) with (line := line).
    destruct (getline file line) as [file1 line1]. simpl in Hadv, Hnext.
    destruct (String.eqb line1 ""); [discriminate|].
    pose proof (readEpochLine_ends line1) as Hepoch.
    destruct (readEpochLine line1) as [record| |]; simpl; [|discriminate|congruence].
    destruct (readSatellites_ends (Z.to_nat (_sumSat record)) file1 line1 record
                (advanced_sound _ _ Hadv)) as [Hsats Hadv2].
    destruct (readSatellites _ file1 line1 record) as [[[file2 line2] record2]| |];
      simpl; [|discriminate|congruence].
    specialize (Hadv2 _ _ _ eq_refl).
    apply IH; [exact (advanced_sound _ _ Hadv2)|].
    exact (Hnext file2 Hsound Heof Henough Hadv2).
Qed.

Lemma Run_bind_Starved {A B : Type} (r : Run A) (k : A -> Run B) :
  r ≫= k = Starved -> r = Starved \/ exists a, r = Finished a /\ k a = Starved.
Proof. destruct r as [a| |]; simpl; [eauto|discriminate|auto]. Qed.

(** The constructor returns or raises [std::out_of_range]; the steps it
    is given in the model are never used up. *)
Lemma ObservationData_of_ends (filePath : string) :
  ObservationData_of filePath <> Starved.
Proof.
  unfold ObservationData_of. intros Hrun.
  apply Run_bind_Starved in Hrun as [Hrun|(rinexType & _ & Hrun)].
  { destruct (String.length filePath =? 0)%nat; [discriminate|].
    destruct (substr _ _ _); discriminate. }
  destruct (negb (String.eqb rinexType "o") && negb (String.eqb rinexType "O"));
    [discriminate|].
  destruct (ifstream_open filePath) as [content|]; [|discriminate].
  set (file0 := mkStream content false false) in Hrun.
  assert (Hsound : sound file0) by (intros _; reflexivity).
  assert (Henough : enough (S (String.length content)) file0) by (right; simpl; lia).
  destruct (readHeader_ends _ file0 EmptyString (mkHeader [] None) Hsound Henough)
    as [Hheader Hadv].
  apply Run_bind_Starved in Hrun as [Hrun|([[file line] header] & Hhead & Hrun)];
    [exact (Hheader Hrun)|].
  destruct (Hadv _ _ _ Hhead) as [S1 P1 E1].
  apply Run_bind_Starved in Hrun as [Hrun|(records & _ & Hrun)]; [|discriminate].
  apply (readRecords_ends (S (String.length content)) file line [] S1);
    [|exact Hrun].
  right. simpl in P1. lia.
Qed.

End ReaderEnds.

(** * The statements on the bench *)

Section OnTheBench.
Import Bench.
Local Open Scope float_scope.

Lemma below_forallb (n : nat) (test : nat -> bool) :
  forallb (fun k => negb (test k)) (seq 0 n) = true ->
  forall k, (k < n)%nat -> test k = false.
Proof.
  intros Hall k Hk. rewrite forallb_forall in Hall.
  apply negb_true_iff, Hall, in_seq. lia.
Qed.

(** On the bench the solver settles in its fourth pass, some 100 m from the
    station. *)
Lemma bench_epoch_solved :
  computeReceiverPosition (env := bench) epoch almanac station
  = Value (V3 6378237.5612884788 44.539547365973704 (-26.255167956340301))
  /\ passes (env := bench) epoch almanac station 4 start = None
  /\ passes (env := bench) epoch almanac station 3 start
     = Some {| recCoord := V3 6378237.5612884853 44.53954736758169
                             (-26.255167953382625);
               recClockError := 0.00020000111394240545 |}.
Proof. repeat split; vm_compute; reflexivity. Qed.

(** The two almanacs differ only on G07, whose pseudorange is missing. *)
Lemma almanacs_agree :
  agreeOnUsable (env := bench) epoch almanac almanac_with_G07.
Proof.
  intros satIndex pr prn Hpr Heps Hprn.
  do 8 (destruct satIndex as [|satIndex];
        [inversion Hpr; subst pr; inversion Hprn; subst prn;
         first [reflexivity | vm_compute in Heps; discriminate]|]).
  discriminate.
Qed.

(** None of the 100 bodies settles the transmission time of the runaway
    satellite. *)
Lemma runaway_never_settles :
  forall k, (k < 100)%nat ->
    PrimFloat.leb (changeAt (env := bench) epoch start
                     (uniform 26560E3 0 0 (V3 4E8 0 0)) 20238716.568%float k)
      ITER_TOL = false.
Proof. apply below_forallb. vm_compute. reflexivity. Qed.

(** Without a record for G02 the epoch fails, although the other seven
    satellites are as before. *)
Lemma missing_ephemeris_fails_epoch_bench :
  _pseudorange_C1C epoch !! 1%nat = Some 21841099.214%float
  /\ PrimFloat.ltb 21841099.214 (EPS (Environment := bench)) = false
  /\ _listSatPRN epoch !! 1%nat = Some "G02"%string
  /\ findCloseRecord (Environment := bench) almanac_without_G02
       (_receiverTime epoch) "G02" = None
  /\ (computeReceiverPosition (env := bench) epoch almanac_without_G02 station
      = Null NoEphemeris
      \/ computeReceiverPosition (env := bench) epoch almanac_without_G02 station
         = Null InnerNotConverged).
Proof.
  assert (H1 : _pseudorange_C1C epoch !! 1%nat = Some 21841099.214%float)
    by reflexivity.
  assert (H2 : PrimFloat.ltb 21841099.214 (EPS (Environment := bench)) = false)
    by reflexivity.
  assert (H3 : _listSatPRN epoch !! 1%nat = Some "G02"%string) by reflexivity.
  assert (H4 : findCloseRecord (Environment := bench) almanac_without_G02
                 (_receiverTime epoch) "G02" = None) by reflexivity.
  exact (conj H1 (conj H2 (conj H3 (conj H4
           (proj2 (@missing_ephemeris_fails_epoch bench epoch almanac_without_G02
                     station 1%nat _ _ H1 H2 H3 H4)))))).
Defined.

(** With the damped inverse the outer loop uses up its 100 passes; with the
    runaway satellite the inner loop uses up its 100 bodies in the first
    pass. *)
Lemma iteration_caps_return_null_bench :
  (outerExhausted (env := bench_damped) epoch almanac station
   /\ isNull (computeReceiverPosition (env := bench_damped) epoch almanac station)
      = true)
  /\ (innerExhausted (env := bench) epoch almanac_runaway station
      /\ isNull (computeReceiverPosition (env := bench) epoch almanac_runaway station)
         = true).
Proof.
  assert (Houter : outerExhausted (env := bench_damped) epoch almanac station).
  { eexists. vm_compute. reflexivity. }
  assert (Hinner : innerExhausted (env := bench) epoch almanac_runaway station).
  { exists 0%nat, start, 0%nat, 20238716.568%float, "G01"%string,
      (uniform 26560E3 0 0 (V3 4E8 0 0)).
    split; [lia|]. split; [reflexivity|]. split; [intros i Hi; lia|].
    split; [reflexivity|]. split; [reflexivity|]. split; [reflexivity|].
    split; [reflexivity|]. exact runaway_never_settles. }
  exact (conj
           (conj Houter
              (proj1 (@iteration_caps_return_null bench_damped epoch almanac station
                        (or_introl Houter))))
           (conj Hinner
              (proj1 (@iteration_caps_return_null bench epoch almanac_runaway station
                        (or_intror Hinner))))).
Defined.

(** In the first pass the transmission-time loops of G05, G06 and G02 end
    with their third body. *)
Lemma G05_located :
  located (env := bench) epoch almanac start 4 G05 26075990.258
    (satTimeAt (env := bench) epoch start G05 26075990.258 2)
    (satCoordAt (env := bench) epoch start G05 26075990.258 2).
Proof.
  split; [reflexivity|]. split; [reflexivity|].
  split; [exists "G05"%string; split; reflexivity|].
  vm_compute. reflexivity.
Qed.

Lemma G06_located :
  located (env := bench) epoch almanac start 5 G06 22247623.147
    (satTimeAt (env := bench) epoch start G06 22247623.147 2)
    (satCoordAt (env := bench) epoch start G06 22247623.147 2).
Proof.
  split; [reflexivity|]. split; [reflexivity|].
  split; [exists "G06"%string; split; reflexivity|].
  vm_compute. reflexivity.
Qed.

Lemma G02_located :
  located (env := bench) epoch almanac start 1 G02 21841099.214
    (satTimeAt (env := bench) epoch start G02 21841099.214 2)
    (satCoordAt (env := bench) epoch start G02 21841099.214 2).
Proof.
  split; [reflexivity|]. split; [reflexivity|].
  split; [exists "G02"%string; split; reflexivity|].
  vm_compute. reflexivity.
Qed.

(** The first pass assembles the five equations of [benchSystem]. *)
Lemma benchSystem_assembled :
  assemble (env := bench) epoch almanac station start = Value benchSystem.
Proof. vm_compute. reflexivity. Qed.

(** G05, about 2 degrees above the horizon of the station, leaves no row. *)
Lemma low_elevation_contributes_no_row_bench :
  located (env := bench) epoch almanac start 4 G05 26075990.258
    (satTimeAt (env := bench) epoch start G05 26075990.258 2)
    (satCoordAt (env := bench) epoch start G05 26075990.258 2)
  /\ satellite (env := bench) epoch almanac station start 4 = Value None
  /\ sysDesign benchSystem
     = map eqRow (accepted (env := bench) epoch almanac station start
                    (others epoch 4)).
Proof.
  pose proof (@low_elevation_contributes_no_row bench epoch almanac station start
                4%nat G05 26075990.258
                (satTimeAt (env := bench) epoch start G05 26075990.258 2)
                (satCoordAt (env := bench) epoch start G05 26075990.258 2)
                G05_located ltac:(vm_compute; reflexivity)) as (Hsat & _ & Hsys).
  split; [exact G05_located|]. split; [exact Hsat|].
  exact (proj1 (Hsys benchSystem benchSystem_assembled)).
Defined.

(** G06, whose pseudorange is 1000 km too long, leaves no row; so do G05
    (low) and G07 (no pseudorange); the five rows kept are those of
    G01-G04 and G08 in that order, G08 in row 4. *)
Lemma blunder_excluded_and_rows_in_order_bench :
  located (env := bench) epoch almanac start 5 G06 22247623.147
    (satTimeAt (env := bench) epoch start G06 22247623.147 2)
    (satCoordAt (env := bench) epoch start G06 22247623.147 2)
  /\ assemble (env := bench) epoch almanac station start = Value benchSystem
  /\ satellite (env := bench) epoch almanac station start 5 = Value None
  /\ accepted (env := bench) epoch almanac station start (seq 0 8)
     = accepted (env := bench) epoch almanac station start (others epoch 6)
  /\ sysDesign benchSystem
     = map eqRow (accepted (env := bench) epoch almanac station start (seq 0 8))
  /\ length (accepted (env := bench) epoch almanac station start (seq 0 7)) = 4%nat
  /\ exists e, satellite (env := bench) epoch almanac station start 7 = Value (Some e)
               /\ sysObservable benchSystem !! 4%nat = Some (eqObservable e).
Proof.
  destruct (@blunder_excluded_and_rows_in_order bench epoch almanac station start)
    as (Hblunder & Hothers & Hrows).
  pose proof (Hblunder 5%nat G06 22247623.147
                (satTimeAt (env := bench) epoch start G06 22247623.147 2)
                (satCoordAt (env := bench) epoch start G06 22247623.147 2)
                G06_located ltac:(vm_compute; reflexivity)) as Hsat.
  assert (Hmissing : satellite (env := bench) epoch almanac station start 6
                     = Value None) by reflexivity.
  assert (Hsix : (6 < length (_listSatPRN epoch))%nat) by (simpl; lia).
  assert (Hseven : (7 < length (_listSatPRN epoch))%nat) by (simpl; lia).
  assert (Hrow : length (accepted (env := bench) epoch almanac station start (seq 0 7))
                 = 4%nat) by (vm_compute; reflexivity).
  assert (Hkept : exists e, satellite (env := bench) epoch almanac station start 7
                            = Value (Some e))
    by (eexists; vm_compute; reflexivity).
  destruct Hkept as (e & He).
  destruct (Hrows benchSystem benchSystem_assembled) as (Hdesign & _ & _ & Hat).
  destruct (Hat 7%nat e Hseven He) as (_ & Hobs & _).
  rewrite Hrow in Hobs.
  split; [exact G06_located|]. split; [exact benchSystem_assembled|].
  split; [exact Hsat|]. split; [exact (Hothers 6%nat Hsix Hmissing)|].
  split; [exact Hdesign|]. split; [exact Hrow|].
  exists e. split; [exact He|exact Hobs].
Defined.

(** G02 sits in row 1 with the observation and weight computed from its
    own range, clock polynomial and elevation. *)
Lemma accepted_row_contents_bench :
  located (env := bench) epoch almanac start 1 G02 21841099.214
    (satTimeAt (env := bench) epoch start G02 21841099.214 2)
    (satCoordAt (env := bench) epoch start G02 21841099.214 2)
  /\ sysObservable benchSystem !! 1%nat = Some 59874.915518836424
  /\ sysWeight benchSystem !! 1%nat = Some 0.39101051367046563.
Proof.
  pose proof (@accepted_row_contents bench epoch almanac station start
                1%nat G02 21841099.214
                (satTimeAt (env := bench) epoch start G02 21841099.214 2)
                (satCoordAt (env := bench) epoch start G02 21841099.214 2)
                benchSystem G02_located ltac:(vm_compute; reflexivity)
                ltac:(vm_compute; reflexivity) benchSystem_assembled)
    as (_ & Hobs & Hweight).
  split; [exact G02_located|]. split.
  - etransitivity; [exact Hobs|]. vm_compute. reflexivity.
  - etransitivity; [exact Hweight|]. vm_compute. reflexivity.
Defined.



(** The first pass moves the estimate by about 100 m and sets the clock
    offset to about 0.2 ms. *)
Lemma solution_updates_estimate_bench :
  assemble (env := bench) epoch almanac station start = Value benchSystem
  /\ pass (env := bench) epoch almanac station start
     = Some {| recCoord := V3 6378237.5819168519 44.939313058064727
                             (-26.554979315340461);
               recClockError := 0.00020000111636003722 |}.
Proof.
  pose proof (@solution_updates_estimate bench epoch almanac station 99 start
                benchSystem benchSystem_assembled) as (_ & Hpass & _).
  split; [exact benchSystem_assembled|].
  etransitivity; [exact (Hpass ltac:(vm_compute; reflexivity))|].
  vm_compute. reflexivity.
Defined.

(** The bench file declares 3 satellites, one of them of another system:
    2 are retained, in five sequences of length 2. *)
Lemma stored_records_parallel_bench :
  ObservationData_of (env := bench) "site0010.20o" = Finished benchData
  /\ In parsedRecord (_observationRecords benchData)
  /\ length (_pseudorange_C1C parsedRecord) = length (_listSatPRN parsedRecord)
  /\ (length (_listSatPRN parsedRecord) < Z.to_nat (_sumSat parsedRecord))%nat.
Proof.
  assert (H1 : ObservationData_of (env := bench) "site0010.20o" = Finished benchData)
    by reflexivity.
  assert (H2 : In parsedRecord (_observationRecords benchData))
    by (left; reflexivity).
  split; [exact H1|]. split; [exact H2|].
  split; [|vm_compute; lia].
  exact (proj1 (@stored_records_parallel bench "site0010.20o" benchData parsedRecord
                  H1 H2)).
Defined.

(** G07 has no pseudorange and no record in [almanac]: it is skipped, and
    adding a record for it changes nothing. *)
Lemma missing_pseudorange_skips_lookup_bench :
  _pseudorange_C1C epoch !! 6%nat = Some 0
  /\ PrimFloat.ltb 0 (EPS (Environment := bench)) = true
  /\ findCloseRecord (Environment := bench) almanac (_receiverTime epoch) "G07" = None
  /\ satellite (env := bench) epoch almanac station start 6 = Value None
  /\ computeReceiverPosition (env := bench) epoch almanac station
     = computeReceiverPosition (env := bench) epoch almanac_with_G07 station.
Proof.
  assert (H1 : _pseudorange_C1C epoch !! 6%nat = Some 0) by reflexivity.
  assert (H2 : PrimFloat.ltb 0 (EPS (Environment := bench)) = true) by reflexivity.
  pose proof (@missing_pseudorange_skips_lookup bench epoch station almanac
                almanac_with_G07 6%nat 0 H1 H2 almanacs_agree) as (Hskip & Hsame).
  split; [exact H1|]. split; [exact H2|]. split; [reflexivity|].
  split; [exact (proj1 (Hskip almanac start (fresh (env := bench) 8)))|exact Hsame].
Defined.

End OnTheBench.

(** * Further properties of the solver *)

Section Runs.
Context {env : Environment}.
Variable self : ObservationRecord.
Variable navigationData : NavigationData.
Variable approxRecCoord : Coordinates.

Local Abbreviation satellite := (Solver.satellite self navigationData approxRecCoord).
Local Abbreviation satelliteLoop := (Solver.satelliteLoop self navigationData approxRecCoord).
Local Abbreviation assemble := (Solver.assemble self navigationData approxRecCoord).
Local Abbreviation adjustLoop := (Solver.adjustLoop self navigationData approxRecCoord).
Local Abbreviation computeReceiverPosition :=
  (Solver.computeReceiverPosition self navigationData approxRecCoord).
Local Abbreviation pass := (pass self navigationData approxRecCoord).
Local Abbreviation passes := (passes self navigationData approxRecCoord).
Local Abbreviation endsWith := (endsWith self navigationData approxRecCoord).
Local Abbreviation accepted := (accepted self navigationData approxRecCoord).
Local Abbreviation starved := (starved self navigationData approxRecCoord).
Local Abbreviation outerExhausted := (outerExhausted self navigationData approxRecCoord).
Local Abbreviation innerExhausted := (innerExhausted self navigationData approxRecCoord).

Lemma adjustLoop_turn (left : nat) (est : Estimate) :
  adjustLoop (S left) est
  = match assemble est with
    | Value sys =>
        if PrimFloat.ltb (norm (head3 (normalEquations sys))) ITER_TOL
        then Value (recCoord (update est (normalEquations sys)))
        else adjustLoop left (update est (normalEquations sys))
    | Null site => Null site
    | OutOfRange => OutOfRange
    end.
Proof. simpl. destruct (assemble est); reflexivity. Qed.

(** Every run of the outer loop is a number of unsuccessful passes followed
    by the cap or by a last pass. *)
Lemma adjustLoop_run (left : nat) (est : Estimate) (r : Outcome Vector3d) :
  adjustLoop left est = r ->
  (r = Null OuterNotConverged /\ exists est', passes left est = Some est')
  \/ (exists k est', (k < left)%nat /\ passes k est = Some est' /\ endsWith est' r).
Proof.
  revert est. induction left as [|left IH]; intros est Hrun.
  - left. simpl in Hrun. split; [congruence|]. exists est. reflexivity.
  - rewrite adjustLoop_turn in Hrun.
    destruct (assemble est) as [sys|site|] eqn:Hsys.
    + destruct (PrimFloat.ltb (norm (head3 (normalEquations sys))) ITER_TOL) eqn:Htol.
      * right. exists 0%nat, est. split; [lia|]. split; [reflexivity|].
        unfold endsWith. rewrite Hsys. split; [exact Htol|congruence].
      * assert (Hpass : pass est = Some (update est (normalEquations sys))).
        { unfold pass. rewrite Hsys. cbv zeta. rewrite Htol. reflexivity. }
        destruct (IH _ Hrun) as [[Hr [est' Hest']]|(k & est' & Hk & Hest' & Hend)].
        -- left. split; [exact Hr|]. exists est'. simpl. rewrite Hpass. exact Hest'.
        -- right. exists (S k), est'. split; [lia|]. split; [|exact Hend].
           simpl. rewrite Hpass. exact Hest'.
    + right. exists 0%nat, est. split; [lia|]. split; [reflexivity|].
      unfold endsWith. rewrite Hsys. congruence.
    + right. exists 0%nat, est. split; [lia|]. split; [reflexivity|].
      unfold endsWith. rewrite Hsys. congruence.
Qed.

Lemma adjustLoop_ends (k left : nat) (est est' : Estimate) (r : Outcome Vector3d) :
  passes k est = Some est' -> endsWith est' r -> adjustLoop (k + S left) est = r.
Proof.
  intros Hk Hend.
  rewrite (adjustLoop_passes self navigationData approxRecCoord k _ est est' Hk).
  rewrite adjustLoop_turn. unfold endsWith in Hend.
  destruct (assemble est') as [sys|site|].
  - destruct Hend as [-> ->]. reflexivity.
  - congruence.
  - congruence.
Qed.

(** *** How a pass can end *)

Lemma satelliteLoop_Value_inv (est : Estimate) (k i : nat) (b b' : Buffers) :
  satelliteLoop est (seq i k) b = Value b' ->
  forall j, (i <= j < i + k)%nat -> exists e, satellite est j = Value e.
Proof.
  revert i b. induction k as [|k IH]; intros i b Hrun j Hj; [lia|].
  simpl in Hrun.
  destruct (satellite est i) as [e| |] eqn:Hsat; simpl in Hrun; try discriminate.
  destruct (decide (j = i)) as [->|Hne]; [eauto|].
  apply (IH (S i) _ Hrun). lia.
Qed.

Lemma satelliteLoop_Value_intro (est : Estimate) (k i : nat) (b : Buffers) :
  (forall j, (i <= j < i + k)%nat -> exists e, satellite est j = Value e) ->
  exists b', satelliteLoop est (seq i k) b = Value b'.
Proof.
  revert i b. induction k as [|k IH]; intros i b Hall; simpl; [eauto|].
  destruct (Hall i) as [e He]; [lia|]. rewrite He. simpl.
  apply IH. intros j Hj. apply Hall. lia.
Qed.

Lemma satelliteLoop_Null_inv (est : Estimate) (k i : nat) (b : Buffers)
    (site : ReturnSite) :
  satelliteLoop est (seq i k) b = Null site ->
  exists satIndex, (i <= satIndex < i + k)%nat
    /\ (forall j, (i <= j < satIndex)%nat -> exists e, satellite est j = Value e)
    /\ satellite est satIndex = Null site.
Proof.
  revert i b. induction k as [|k IH]; intros i b Hrun; simpl in Hrun; [discriminate|].
  destruct (satellite est i) as [e|site'|] eqn:Hsat; simpl in Hrun; try discriminate.
  - destruct (IH _ _ Hrun) as (satIndex & Hrange & Hbefore & Hfail).
    exists satIndex. split; [lia|]. split; [|exact Hfail].
    intros j Hj. destruct (decide (j = i)) as [->|Hne]; [eauto|].
    apply Hbefore. lia.
  - exists i. split; [lia|]. split; [intros j Hj; lia|congruence].
Qed.

Lemma satelliteLoop_thrown_inv (est : Estimate) (k i : nat) (b : Buffers) :
  satelliteLoop est (seq i k) b = OutOfRange ->
  exists satIndex, (i <= satIndex < i + k)%nat /\ satellite est satIndex = OutOfRange.
Proof.
  revert i b. induction k as [|k IH]; intros i b Hrun; simpl in Hrun; [discriminate|].
  destruct (satellite est i) as [e|site'|] eqn:Hsat; simpl in Hrun; try discriminate.
  - destruct (IH _ _ Hrun) as (satIndex & Hrange & Hfail).
    exists satIndex. split; [lia|exact Hfail].
  - exists i. split; [lia|exact Hsat].
Qed.

Lemma compact_sites (n : nat) (b : Buffers) (site : ReturnSite) :
  compact n b = Null site ->
  site = NotEnoughObservations
  /\ (0 < countDisposed b)%nat /\ (n - countDisposed b < 4)%nat.
Proof.
  unfold compact.
  destruct (0 <? countDisposed b)%nat eqn:Hpos; [|discriminate].
  destruct (n - countDisposed b <? 4)%nat eqn:Hfew; [|discriminate].
  intros H. inversion H. apply Nat.ltb_lt in Hpos. apply Nat.ltb_lt in Hfew. auto.
Qed.

Lemma compact_not_thrown (n : nat) (b : Buffers) : compact n b <> OutOfRange.
Proof. unfold compact. repeat case_match; discriminate. Qed.

(** The counter and the accepted equations of a finished satellite loop
    add up to the number of satellites. *)
Lemma satelliteLoop_count (est : Estimate) (b : Buffers) :
  satelliteLoop est (seq 0 (length (_listSatPRN self)))
    (fresh (length (_listSatPRN self))) = Value b ->
  (countDisposed b
   + length (accepted est (seq 0 (length (_listSatPRN self))))
   = length (_listSatPRN self))%nat.
Proof.
  intros Hrun. set (n := length (_listSatPRN self)) in *.
  assert (Hsum : (0 + n = n)%nat) by lia.
  exact (filled_count _ _ _ _
           (satelliteLoop_Filled self navigationData approxRecCoord est n n 0
              (fresh n) b Hsum (Filled_fresh n) Hrun)).
Qed.

Lemma starved_assemble (est : Estimate) :
  starved est -> assemble est = Null NotEnoughObservations.
Proof.
  intros (Hall & Hsome & Hfew). unfold assemble.
  set (n := length (_listSatPRN self)) in *.
  destruct (satelliteLoop_Value_intro est n 0 (fresh n)) as [b Hrun].
  { intros j Hj. apply Hall. lia. }
  rewrite Hrun. simpl.
  pose proof (satelliteLoop_count est b Hrun) as Hcount. fold n in Hcount.
  apply compact_after_disposal; lia.
Qed.

Lemma assemble_starved (est : Estimate) :
  assemble est = Null NotEnoughObservations -> starved est.
Proof.
  unfold assemble. set (n := length (_listSatPRN self)). intros Hrun.
  destruct (satelliteLoop est (seq 0 n) (fresh n)) as [b|site|] eqn:Hloop;
    simpl in Hrun; try discriminate.
  - destruct (compact_sites n b _ Hrun) as (_ & Hpos & Hfew).
    pose proof (satelliteLoop_count est b Hloop) as Hcount. fold n in Hcount.
    split; [|fold n; lia].
    intros i Hi. apply (satelliteLoop_Value_inv est n 0 _ _ Hloop). lia.
  - inversion Hrun; subst site.
    destruct (satelliteLoop_Null_inv est n 0 _ _ Hloop) as (satIndex & Hrange & _ & Hsat).
    pose proof (lookup_lt_is_Some_2 (_listSatPRN self) satIndex ltac:(fold n; lia))
      as Hprn.
    unfold Solver.satellite, at_ in Hsat.
    destruct (_pseudorange_C1C self !! satIndex) as [pr|]; simpl in Hsat;
      [|discriminate].
    destruct (PrimFloat.ltb pr EPS); [discriminate|].
    destruct Hprn as [prn Hprn]. rewrite Hprn in Hsat. simpl in Hsat.
    destruct (findCloseRecord navigationData (_receiverTime self) prn) as [rec|];
      [|discriminate].
    apply observe_sites in Hsat. discriminate.
Qed.

Lemma computeReceiverPosition_Null (site : ReturnSite) :
  computeReceiverPosition = Null site
  <-> adjustLoop 100 (initial approxRecCoord) = Null site.
Proof.
  unfold Solver.computeReceiverPosition.
  destruct (adjustLoop 100 (initial approxRecCoord)); simpl; split; congruence.
Qed.

Lemma transmissionLoop_None_inv (est : Estimate) (closeRecord : NavigationRecord)
    (pseudorange : double) :
  transmissionLoop self est closeRecord pseudorange 100 0%float 0.075%float = None ->
  forall k, (k < 100)%nat ->
    PrimFloat.leb (changeAt self est closeRecord pseudorange k) ITER_TOL = false.
Proof.
  intros Hloop k Hk.
  pose proof (transmissionLoop_from self est closeRecord pseudorange 100 0) as Hfrom.
  cbn [satTimeBefore delayAt] in Hfrom. rewrite Hloop in Hfrom.
  unfold firstMeeting in Hfrom.
  destruct (find _ (seq 0 100)) eqn:Hfind; [discriminate|].
  apply (find_none _ _ Hfind). apply in_seq. lia.
Qed.

(** What a satellite that returns null has gone through. *)
Lemma satellite_Null_inv (est : Estimate) (satIndex : nat) (site : ReturnSite) :
  satellite est satIndex = Null site ->
  exists pseudorange prn,
    _pseudorange_C1C self !! satIndex = Some pseudorange
    /\ PrimFloat.ltb pseudorange EPS = false
    /\ _listSatPRN self !! satIndex = Some prn
    /\ ((site = NoEphemeris
         /\ findCloseRecord navigationData (_receiverTime self) prn = None)
        \/ (site = InnerNotConverged
            /\ exists closeRecord,
                 findCloseRecord navigationData (_receiverTime self) prn
                 = Some closeRecord
                 /\ transmissionLoop self est closeRecord pseudorange 100
                      0%float 0.075%float = None)).
Proof.
  unfold Solver.satellite, at_. intros Hsat.
  destruct (_pseudorange_C1C self !! satIndex) as [pr|]; simpl in Hsat; [|discriminate].
  destruct (PrimFloat.ltb pr EPS) eqn:Heps; [discriminate|].
  destruct (_listSatPRN self !! satIndex) as [prn|]; simpl in Hsat; [|discriminate].
  exists pr, prn. repeat (split; [reflexivity || assumption|]).
  destruct (findCloseRecord navigationData (_receiverTime self) prn) as [rec|].
  - right. pose proof (observe_sites self approxRecCoord est rec pr site Hsat) as ->.
    split; [reflexivity|]. exists rec. split; [reflexivity|].
    unfold observe in Hsat.
    destruct (transmissionLoop self est rec pr 100 _ _) as [[t sc]|]; [|reflexivity].
    repeat case_match; discriminate.
  - left. inversion Hsat. auto.
Qed.

(** A pass that returns null from the satellite loop does so at its first
    failing satellite. *)
Lemma assemble_Null_satellite (est : Estimate) (site : ReturnSite) :
  site <> NotEnoughObservations ->
  assemble est = Null site ->
  exists satIndex,
    (forall i, (i < satIndex)%nat -> exists e, satellite est i = Value e)
    /\ satellite est satIndex = Null site.
Proof.
  unfold Solver.assemble. set (n := length (_listSatPRN self)). intros Hsite Hrun.
  destruct (satelliteLoop est (seq 0 n) (fresh n)) as [b|site'|] eqn:Hloop;
    simpl in Hrun; try discriminate.
  - destruct (compact_sites n b _ Hrun) as (-> & _). congruence.
  - inversion Hrun; subst site'.
    destruct (satelliteLoop_Null_inv est n 0 _ _ Hloop) as (satIndex & _ & Hbefore & Hsat).
    exists satIndex. split; [|exact Hsat]. intros i Hi. apply Hbefore. lia.
Qed.

Lemma satellite_Null_assemble (est : Estimate) (satIndex : nat) (site : ReturnSite) :
  (forall i, (i < satIndex)%nat -> exists e, satellite est i = Value e) ->
  satellite est satIndex = Null site ->
  assemble est = Null site.
Proof.
  intros Hbefore Hsat. unfold Solver.assemble.
  destruct (satellite_Null_inv est satIndex site Hsat) as (pr & prn & _ & _ & Hprn & _).
  pose proof (lookup_lt_Some _ _ _ Hprn) as Hlt.
  rewrite (seq_split_at _ satIndex Hlt).
  rewrite (satelliteLoop_first_failure self approxRecCoord navigationData est
             _ _ satIndex _ site); [reflexivity| |exact Hsat].
  intros i Hi. apply Hbefore. apply in_seq in Hi. lia.
Qed.

(** X1. A coordinate is returned only by a pass, among the first 100, that
    assembled a system whose solution has a 3-component norm below
    [ITER_TOL]; the coordinate is the estimate of that pass plus the
    first three components of that solution. *)
Theorem coordinate_comes_from_converged_pass (c : Coordinates) :
  computeReceiverPosition = Value c ->
  exists k est sys,
    (k < 100)%nat
    /\ passes k (initial approxRecCoord) = Some est
    /\ assemble est = Value sys
    /\ PrimFloat.ltb (norm (head3 (normalEquations sys))) ITER_TOL = true
    /\ c = Coordinates_vec
             (V3 (vx (recCoord est) + s0 (normalEquations sys))%float
                 (vy (recCoord est) + s1 (normalEquations sys))%float
                 (vz (recCoord est) + s2 (normalEquations sys))%float).
Proof.
  unfold Solver.computeReceiverPosition. intros Hrun.
  destruct (adjustLoop 100 (initial approxRecCoord)) as [rc| |] eqn:Hloop;
    simpl in Hrun; try discriminate.
  inversion Hrun; subst c.
  destruct (adjustLoop_run _ _ _ Hloop) as [[? _]|(k & est & Hk & Hpasses & Hend)];
    [discriminate|].
  unfold endsWith in Hend.
  destruct (assemble est) as [sys| |] eqn:Hsys; try discriminate.
  destruct Hend as [Htol Hrc]. inversion Hrc; subst rc.
  exists k, est, sys. auto.
Qed.

(** X2. The null pointer of line 166 is returned exactly when one of the
    first 100 passes visits every satellite without failure, disposes at
    least one of them and accepts fewer than 4. *)
Theorem not_enough_observations_iff :
  computeReceiverPosition = Null NotEnoughObservations
  <-> exists k est, (k < 100)%nat
        /\ passes k (initial approxRecCoord) = Some est
        /\ starved est.
Proof.
  rewrite computeReceiverPosition_Null. split.
  - intros Hloop.
    destruct (adjustLoop_run _ _ _ Hloop) as [[? _]|(k & est & Hk & Hpasses & Hend)];
      [discriminate|].
    exists k, est. split; [exact Hk|]. split; [exact Hpasses|].
    apply assemble_starved. unfold endsWith in Hend.
    destruct (assemble est); [destruct Hend; discriminate|congruence|discriminate].
  - intros (k & est & Hk & Hpasses & Hstarved).
    replace 100%nat with (k + S (99 - k))%nat by lia.
    apply (adjustLoop_ends k _ _ est _ Hpasses).
    unfold endsWith. rewrite (starved_assemble est Hstarved). reflexivity.
Qed.

(** X3. The two convergence failures are exact: the null pointer of line 87
    is returned exactly when 100 passes in a row miss the tolerance, that
    of line 121 exactly when an inner loop that is reached runs its 100
    bodies without meeting it. *)
Theorem convergence_failures_iff :
  (computeReceiverPosition = Null OuterNotConverged <-> outerExhausted)
  /\ (computeReceiverPosition = Null InnerNotConverged <-> innerExhausted).
Proof.
  split; (split; [|first [apply outerExhausted_null|apply innerExhausted_null]]).
  - rewrite computeReceiverPosition_Null. intros Hloop.
    destruct (adjustLoop_run _ _ _ Hloop) as [[_ H]|(k & est & Hk & Hpasses & Hend)];
      [exact H|].
    exfalso. unfold endsWith in Hend.
    destruct (assemble est) as [sys|site|] eqn:Hsys;
      [destruct Hend; discriminate| |discriminate].
    inversion Hend; subst site.
    destruct (assemble_Null_satellite est OuterNotConverged ltac:(discriminate) Hsys)
      as (satIndex & _ & Hsat).
    destruct (satellite_Null_inv est satIndex _ Hsat)
      as (pr & prn & _ & _ & _ & [[? _]|[? _]]); discriminate.
  - rewrite computeReceiverPosition_Null. intros Hloop.
    destruct (adjustLoop_run _ _ _ Hloop) as [[? _]|(k & est & Hk & Hpasses & Hend)];
      [discriminate|].
    unfold endsWith in Hend.
    destruct (assemble est) as [sys|site|] eqn:Hsys;
      [destruct Hend; discriminate| |discriminate].
    inversion Hend; subst site.
    destruct (assemble_Null_satellite est InnerNotConverged ltac:(discriminate) Hsys)
      as (satIndex & Hbefore & Hsat).
    destruct (satellite_Null_inv est satIndex _ Hsat)
      as (pr & prn & Hpr & Heps & Hprn & [[? _]|(_ & rec & Hnav & Hnone)]);
      [discriminate|].
    exists k, est, satIndex, pr, prn, rec.
    repeat (split; [assumption|]).
    exact (transmissionLoop_None_inv est rec pr Hnone).
Qed.

(** X4. The null pointer of line 107 is returned exactly when, in one of the
    first 100 passes, the first satellite that fails is one that passes
    the missing-value test and has no navigation record at the receiver
    time. *)
Theorem no_ephemeris_iff :
  computeReceiverPosition = Null NoEphemeris
  <-> exists k est satIndex pseudorange prn,
        (k < 100)%nat
        /\ passes k (initial approxRecCoord) = Some est
        /\ (forall i, (i < satIndex)%nat -> exists e, satellite est i = Value e)
        /\ _pseudorange_C1C self !! satIndex = Some pseudorange
        /\ PrimFloat.ltb pseudorange EPS = false
        /\ _listSatPRN self !! satIndex = Some prn
        /\ findCloseRecord navigationData (_receiverTime self) prn = None.
Proof.
  rewrite computeReceiverPosition_Null. split.
  - intros Hloop.
    destruct (adjustLoop_run _ _ _ Hloop) as [[? _]|(k & est & Hk & Hpasses & Hend)];
      [discriminate|].
    unfold endsWith in Hend.
    destruct (assemble est) as [sys|site|] eqn:Hsys;
      [destruct Hend; discriminate| |discriminate].
    inversion Hend; subst site.
    destruct (assemble_Null_satellite est NoEphemeris ltac:(discriminate) Hsys)
      as (satIndex & Hbefore & Hsat).
    destruct (satellite_Null_inv est satIndex _ Hsat)
      as (pr & prn & Hpr & Heps & Hprn & [[_ Hnav]|[? _]]); [|discriminate].
    exists k, est, satIndex, pr, prn. auto 10.
  - intros (k & est & satIndex & pr & prn & Hk & Hpasses & Hbefore
            & Hpr & Heps & Hprn & Hnav).
    replace 100%nat with (k + S (99 - k))%nat by lia.
    apply (adjustLoop_ends k _ _ est _ Hpasses).
    unfold endsWith.
    rewrite (satellite_Null_assemble est satIndex NoEphemeris Hbefore);
      [reflexivity|].
    exact (satellite_no_ephemeris self navigationData approxRecCoord est satIndex
             pr prn Hpr Heps Hprn Hnav).
Qed.

Lemma computeReceiverPosition_not_thrown :
  (length (_listSatPRN self) <= length (_pseudorange_C1C self))%nat ->
  computeReceiverPosition <> OutOfRange.
Proof.
  intros Hlen. unfold Solver.computeReceiverPosition.
  destruct (adjustLoop 100 (initial approxRecCoord)) as [rc|site|] eqn:Hloop;
    simpl; [discriminate..|]. intros _.
  destruct (adjustLoop_run _ _ _ Hloop) as [[? _]|(k & est & _ & _ & Hend)];
    [discriminate|].
  unfold endsWith, Solver.assemble in Hend.
  set (n := length (_listSatPRN self)) in *.
  destruct (satelliteLoop est (seq 0 n) (fresh n)) as [b|site|] eqn:Hsats;
    simpl in Hend.
  - pose proof (compact_not_thrown n b) as Hcompact.
    destruct (compact n b); [destruct Hend; discriminate|discriminate|congruence].
  - discriminate.
  - destruct (satelliteLoop_thrown_inv est n 0 _ Hsats) as (satIndex & Hrange & Hsat).
    destruct (satellite_in_range self approxRecCoord navigationData est satIndex)
      as [[e He]|[He|He]]; try congruence; apply lookup_lt_is_Some; fold n; lia.
Qed.

(** X5. When the pseudorange sequence is at least as long as the identifier
    sequence no [vector::at] raises: the call returns a coordinate or the
    null pointer. *)
Theorem parallel_record_never_raises :
  (length (_listSatPRN self) <= length (_pseudorange_C1C self))%nat ->
  (exists c, computeReceiverPosition = Value c)
  \/ (exists site, computeReceiverPosition = Null site).
Proof.
  intros Hlen. pose proof (computeReceiverPosition_not_thrown Hlen) as Hnot.
  destruct computeReceiverPosition as [c|site|]; [eauto..|congruence].
Qed.

Lemma satellite_Some_row (est : Estimate) (satIndex : nat) (e : Equation) :
  satellite est satIndex = Value (Some e) ->
  exists aX aY aZ, eqRow e = [aX; aY; aZ; 1%float].
Proof.
  unfold Solver.satellite, at_. intros Hsat.
  destruct (_pseudorange_C1C self !! satIndex) as [pr|]; simpl in Hsat; [|discriminate].
  destruct (PrimFloat.ltb pr EPS); [discriminate|].
  destruct (_listSatPRN self !! satIndex) as [prn|]; simpl in Hsat; [|discriminate].
  destruct (findCloseRecord navigationData (_receiverTime self) prn) as [rec|];
    [|discriminate].
  unfold observe in Hsat.
  destruct (transmissionLoop self est rec pr 100 _ _) as [[t sc]|]; [|discriminate].
  destruct (PrimFloat.leb _ CUTOFF_ELEVATION); [discriminate|].
  destruct (PrimFloat.ltb BLUNDER_PICKER _); [discriminate|].
  inversion Hsat; subst e. simpl. eauto.
Qed.

Lemma accepted_rows (est : Estimate) (indices : list nat) :
  Forall (fun row => exists aX aY aZ, row = [aX; aY; aZ; 1%float])
    (map eqRow (accepted est indices))
  /\ (length (accepted est indices) <= length indices)%nat.
Proof.
  induction indices as [|i indices [IHrows IHlen]]; simpl; [split; [constructor|lia]|].
  destruct (satellite est i) as [[e|]| |] eqn:Hsat; simpl;
    try (split; [exact IHrows|lia]).
  split; [|lia]. constructor; [|exact IHrows].
  exact (satellite_Some_row est i e Hsat).
Qed.

(** X6. The system a pass hands to the solve is well shaped: as many
    observations and weights as rows, every row made of three entries
    followed by 1, no more rows than satellites, and at least 4 rows
    whenever a satellite was left out. *)
Theorem assembled_system_shape (est : Estimate) (sys : LinearSystem) :
  assemble est = Value sys ->
  length (sysObservable sys) = length (sysDesign sys)
  /\ length (sysWeight sys) = length (sysDesign sys)
  /\ Forall (fun row => exists aX aY aZ, row = [aX; aY; aZ; 1%float]) (sysDesign sys)
  /\ (length (sysDesign sys) <= length (_listSatPRN self))%nat
  /\ ((length (sysDesign sys) < length (_listSatPRN self))%nat ->
      (4 <= length (sysDesign sys))%nat).
Proof.
  intros Hsys.
  destruct (assemble_accepted self navigationData approxRecCoord est sys Hsys)
    as (HA & Hb & Hw).
  set (n := length (_listSatPRN self)) in *.
  destruct (accepted_rows est (seq 0 n)) as [Hrows Hlen].
  rewrite length_seq in Hlen.
  rewrite HA, Hb, Hw, !length_map.
  split; [reflexivity|]. split; [reflexivity|]. split; [exact Hrows|].
  split; [exact Hlen|]. intros Hless.
  unfold Solver.assemble in Hsys. fold n in Hsys.
  destruct (satelliteLoop est (seq 0 n) (fresh n)) as [b| |] eqn:Hloop;
    simpl in Hsys; try discriminate.
  pose proof (satelliteLoop_count est b Hloop) as Hcount. fold n in Hcount.
  unfold compact in Hsys.
  destruct (0 <? countDisposed b)%nat eqn:Hpos.
  - destruct (n - countDisposed b <? 4)%nat eqn:Hfew; [discriminate|].
    apply Nat.ltb_ge in Hfew. lia.
  - apply Nat.ltb_ge in Hpos. lia.
Qed.

Lemma accepted_none (est : Estimate) (indices : list nat) :
  (forall i, In i indices -> satellite est i = Value None) ->
  accepted est indices = [].
Proof.
  induction indices as [|i indices IH]; intros Hall; simpl; [reflexivity|].
  rewrite (Hall i) by (left; reflexivity).
  apply IH. intros j Hj. apply Hall. right. exact Hj.
Qed.

(** X7. An epoch that stores satellites but whose first pseudoranges are all
    below [EPS] returns the null pointer of line 166 in its first pass,
    without any ephemeris lookup. *)
Theorem all_missing_returns_null :
  _listSatPRN self <> [] ->
  (forall i, (i < length (_listSatPRN self))%nat ->
     exists pseudorange : double,
       _pseudorange_C1C self !! i = Some pseudorange
       /\ PrimFloat.ltb pseudorange EPS = true) ->
  computeReceiverPosition = Null NotEnoughObservations
  /\ assemble (initial approxRecCoord) = Null NotEnoughObservations.
Proof.
  intros Hsome Hall.
  assert (Hsat : forall est i, (i < length (_listSatPRN self))%nat ->
                   satellite est i = Value None).
  { intros est i Hi. destruct (Hall i Hi) as (pr & Hpr & Heps).
    unfold Solver.satellite, at_. rewrite Hpr. simpl. rewrite Heps. reflexivity. }
  assert (Hstarved : starved (initial approxRecCoord)).
  { unfold starved. cbv zeta.
    rewrite accepted_none by (intros i Hi; apply Hsat; apply in_seq in Hi; lia).
    split; [intros i Hi; rewrite (Hsat _ i Hi); eauto|].
    destruct (_listSatPRN self); [congruence|simpl; lia]. }
  split; [|exact (starved_assemble _ Hstarved)].
  apply computeReceiverPosition_Null.
  apply (adjustLoop_ends 0 99 _ (initial approxRecCoord)); [reflexivity|].
  unfold endsWith. rewrite (starved_assemble _ Hstarved). reflexivity.
Qed.

End Runs.

Lemma Outcome_bind_Value {A B : Type} (a : A) (k : A -> Outcome B) :
  Value a ≫= k = k a.
Proof. reflexivity. Qed.

Lemma Outcome_bind_Null {A B : Type} (site : ReturnSite) (k : A -> Outcome B) :
  Null site ≫= k = Null site.
Proof. reflexivity. Qed.

Lemma Outcome_bind_thrown {A B : Type} (k : A -> Outcome B) :
  OutOfRange ≫= k = OutOfRange.
Proof. reflexivity. Qed.

Lemma transmissionLoop_turn {env : Environment} (self : ObservationRecord)
    (est : Estimate) (closeRecord : NavigationRecord) (pseudorange : double)
    (left : nat) (satTimeF estimatedTimeDelay : double) :
  transmissionLoop self est closeRecord pseudorange (S left) satTimeF
    estimatedTimeDelay
  = (let '(t, satCoord) := transmit self est closeRecord pseudorange
                             estimatedTimeDelay in
     if PrimFloat.leb (PrimFloat.abs (PrimFloat.sub t satTimeF)) ITER_TOL
     then Some (t, satCoord)
     else transmissionLoop self est closeRecord pseudorange left t
            (nextDelay est satCoord)).
Proof. reflexivity. Qed.

Lemma satelliteLoop_turn {env : Environment} (self : ObservationRecord)
    (navigationData : NavigationData) (approxRecCoord : Coordinates) (est : Estimate)
    (satIndex : nat) (rest : list nat) (b : Buffers) :
  satelliteLoop self navigationData approxRecCoord est (satIndex :: rest) b
  = match satellite self navigationData approxRecCoord est satIndex with
    | Value e => satelliteLoop self navigationData approxRecCoord est rest
                   (store satIndex b e)
    | Null site => Null site
    | OutOfRange => OutOfRange
    end.
Proof.
  simpl. destruct (satellite self navigationData approxRecCoord est satIndex);
    reflexivity.
Qed.

Section Interference.
Context {env : Environment}.
Variable navigationData : NavigationData.
Variable approxRecCoord : Coordinates.
Variables r1 r2 : ObservationRecord.
Hypothesis same : sameObservations r1 r2.

Lemma transmissionLoop_same (est : Estimate) (closeRecord : NavigationRecord)
    (pseudorange : double) (left : nat) (satTimeF estimatedTimeDelay : double) :
  transmissionLoop r1 est closeRecord pseudorange left satTimeF estimatedTimeDelay
  = transmissionLoop r2 est closeRecord pseudorange left satTimeF estimatedTimeDelay.
Proof.
  destruct same as (Ht & _ & _).
  revert satTimeF estimatedTimeDelay.
  induction left as [|left IH]; intros satTimeF estimatedTimeDelay; [reflexivity|].
  rewrite !transmissionLoop_turn. unfold transmit, recTimeF. rewrite Ht.
  destruct (computeSatellitePosition closeRecord _) as [position t].
  destruct (PrimFloat.leb _ ITER_TOL); [reflexivity|]. apply IH.
Qed.

Lemma observe_same (est : Estimate) (closeRecord : NavigationRecord)
    (pseudorange : double) :
  observe r1 approxRecCoord est closeRecord pseudorange
  = observe r2 approxRecCoord est closeRecord pseudorange.
Proof. unfold observe. rewrite transmissionLoop_same. reflexivity. Qed.

Lemma satellite_same (est : Estimate) (satIndex : nat) :
  satellite r1 navigationData approxRecCoord est satIndex
  = satellite r2 navigationData approxRecCoord est satIndex.
Proof.
  pose proof same as (Ht & Hprn & Hc).
  unfold satellite. rewrite Ht, Hprn, Hc.
  destruct (at_ (_pseudorange_C1C r2) satIndex) as [pr|site|];
    rewrite ?Outcome_bind_Value, ?Outcome_bind_Null, ?Outcome_bind_thrown;
    [|reflexivity..].
  destruct (PrimFloat.ltb pr EPS); [reflexivity|].
  destruct (at_ (_listSatPRN r2) satIndex) as [prn|site|];
    rewrite ?Outcome_bind_Value, ?Outcome_bind_Null, ?Outcome_bind_thrown;
    [|reflexivity..].
  destruct (findCloseRecord navigationData (_receiverTime r2) prn) as [rec|];
    [|reflexivity].
  apply observe_same.
Qed.

Lemma satelliteLoop_same (est : Estimate) (indices : list nat) (b : Buffers) :
  satelliteLoop r1 navigationData approxRecCoord est indices b
  = satelliteLoop r2 navigationData approxRecCoord est indices b.
Proof.
  revert b. induction indices as [|i indices IH]; intros b; [reflexivity|].
  rewrite !satelliteLoop_turn, satellite_same.
  destruct (satellite r2 navigationData approxRecCoord est i); auto.
Qed.

Lemma adjustLoop_same (left : nat) (est : Estimate) :
  adjustLoop r1 navigationData approxRecCoord left est
  = adjustLoop r2 navigationData approxRecCoord left est.
Proof.
  pose proof same as (_ & Hprn & _).
  revert est. induction left as [|left IH]; intros est; [reflexivity|].
  rewrite !adjustLoop_turn. unfold assemble.
  rewrite Hprn, satelliteLoop_same.
  destruct (satelliteLoop r2 navigationData approxRecCoord est _ _) as [b|site|];
    rewrite ?Outcome_bind_Value, ?Outcome_bind_Null, ?Outcome_bind_thrown;
    [|reflexivity..].
  destruct (compact _ b) as [sys| |]; [|reflexivity..].
  destruct (PrimFloat.ltb _ ITER_TOL); [reflexivity|]. apply IH.
Qed.

(** X8. The solver reads the receiver time, the identifiers and the first
    pseudoranges of a record and nothing else: two records that agree on
    these three members get the same answer, whatever their second
    pseudoranges, phases, status flag and declared count. *)
Theorem only_first_pseudorange_is_used :
  computeReceiverPosition r1 navigationData approxRecCoord
  = computeReceiverPosition r2 navigationData approxRecCoord.
Proof. unfold computeReceiverPosition. rewrite adjustLoop_same. reflexivity. Qed.

End Interference.

(** * Further properties of the reader *)

Section Reading.
Context {env : Environment}.

Lemma ObservationData_of_Stored (filePath : string) (data : ObservationData) :
  ObservationData_of filePath = Finished data ->
  Forall Stored (_observationRecords data).
Proof.
  unfold ObservationData_of. intros Hrun.
  apply Run_bind_Finished in Hrun as (rinexType & _ & Hrun).
  destruct (negb (String.eqb rinexType "o") && negb (String.eqb rinexType "O")).
  { inversion Hrun; subst. constructor. }
  destruct (ifstream_open filePath) as [content|].
  2: { inversion Hrun; subst. constructor. }
  apply Run_bind_Finished in Hrun as ([[file line] header] & _ & Hrun).
  apply Run_bind_Finished in Hrun as (records & Hrecords & Hrun).
  inversion Hrun; subst data.
  simpl. apply (readRecords_Stored _ _ _ _ _ Hrecords). constructor.
Qed.

(** X9. The solver never raises on a record stored by the reader: for every
    record of a constructed [ObservationData], every ephemeris store and
    every approximate coordinate, it returns a coordinate or the null
    pointer. *)
Theorem stored_record_never_raises (filePath : string) (data : ObservationData)
    (record : ObservationRecord) (navigationData : NavigationData)
    (approxRecCoord : Coordinates) :
  ObservationData_of filePath = Finished data ->
  In record (_observationRecords data) ->
  (exists c, computeReceiverPosition record navigationData approxRecCoord = Value c)
  \/ (exists site,
        computeReceiverPosition record navigationData approxRecCoord = Null site).
Proof.
  intros Hrun Hin.
  pose proof (ObservationData_of_Stored filePath data Hrun) as Hall.
  rewrite Forall_forall in Hall.
  destruct (Hall record) as [[H1 _ _ _ _] _]; [apply list_elem_of_In; exact Hin|].
  pose proof (computeReceiverPosition_not_thrown record navigationData approxRecCoord
                ltac:(lia)) as Hnot.
  destruct (computeReceiverPosition record navigationData approxRecCoord)
    as [c|site|]; [eauto..|congruence].
Qed.

(** X10. The constructor ends on every path and every file: it returns or
    raises [std::out_of_range], since each turn of its two [while] loops
    that goes on has consumed a character of the file. *)
Theorem constructor_terminates (filePath : string) :
  (exists data, ObservationData_of filePath = Finished data)
  \/ ObservationData_of filePath = Raised.
Proof.
  pose proof (ObservationData_of_ends filePath) as Hends.
  destruct (ObservationData_of filePath) as [data| |]; [eauto|auto|congruence].
Qed.

(** X11. A path whose last character is neither o nor O, or whose file does
    not open, gives an object without header lines or records, its approximate
    position as default-constructed; nothing is raised. *)
Theorem unreadable_path_gives_empty_data (filePath rinexType : string) :
  String.length filePath <> 0%nat ->
  substr filePath (String.length filePath - 1) 1 = Some rinexType ->
  (rinexType <> "o"%string /\ rinexType <> "O"%string)
  \/ ifstream_open filePath = None ->
  ObservationData_of filePath = Finished (mkObservationData (mkHeader [] None) []).
Proof.
  intros Hlen Htype Hwhy. unfold ObservationData_of.
  apply Nat.eqb_neq in Hlen. rewrite Hlen, Htype. simpl.
  destruct Hwhy as [[Ho HO]|Hopen].
  - apply String.eqb_neq in Ho. apply String.eqb_neq in HO.
    rewrite Ho, HO. reflexivity.
  - destruct (negb (String.eqb rinexType "o") && negb (String.eqb rinexType "O"));
      [reflexivity|]. rewrite Hopen. reflexivity.
Qed.

Lemma Run_bind_ret {A B : Type} (a : A) (k : A -> Run B) : Finished a ≫= k = k a.
Proof. reflexivity. Qed.

Lemma readHeader_turn (steps : nat) (file : ifstream) (line : string)
    (header : ObservationHeader) :
  eofbit file = false ->
  readHeader (S steps) file line header
  = (let '(file, line) := getline file line in
     let header := mkHeader (_infoLines header ++ [line]) (_approxPosition header) in
     tag ← raising (substr line 60 13);
     if String.eqb tag "END OF HEADER" then Finished (file, line, header)
     else
       tag ← raising (substr line 60 19);
       if String.eqb tag "APPROX POSITION XYZ" then
         x ← raising (substr line 1 13);
         y ← raising (substr line 15 13);
         z ← raising (substr line 29 13);
         readHeader steps file line
           (mkHeader (_infoLines header)
              (Some (Coordinates_xyz (atof x) (atof y) (atof z))))
       else readHeader steps file line header).
Proof. intros Heof. simpl. rewrite Heof. reflexivity. Qed.

Lemma readHeader_at_end (steps : nat) (file : ifstream) (line : string)
    (header : ObservationHeader) :
  eofbit file = true ->
  readHeader steps file line header = Finished (file, line, header).
Proof. intros Heof. destruct steps; simpl; rewrite Heof; reflexivity. Qed.

Lemma readRecords_at_end (steps : nat) (file : ifstream) (line : string)
    (records : list ObservationRecord) :
  eofbit file = true ->
  readRecords steps file line records = Finished records.
Proof. intros Heof. destruct steps; simpl; rewrite Heof; reflexivity. Qed.

Lemma substr_Some_length (s : string) (pos len : nat) (t : string) :
  substr s pos len = Some t -> (pos <= String.length s)%nat.
Proof.
  unfold substr. destruct (pos <=? String.length s)%nat eqn:H; [|discriminate].
  intros _. apply Nat.leb_le. exact H.
Qed.

Lemma substr_short (s : string) (pos len : nat) :
  (String.length s < pos)%nat -> substr s pos len = None.
Proof.
  intros H. unfold substr.
  destruct (pos <=? String.length s)%nat eqn:Hle; [|reflexivity].
  apply Nat.leb_le in Hle. lia.
Qed.

(** X12. When the file opens and its first line is shorter than 60
    characters, as in an empty file, the test for END OF HEADER raises
    [std::out_of_range] and no object is constructed. *)
Theorem short_first_line_raises (filePath content : string) :
  String.length filePath <> 0%nat ->
  substr filePath (String.length filePath - 1) 1 = Some "o"%string
  \/ substr filePath (String.length filePath - 1) 1 = Some "O"%string ->
  ifstream_open filePath = Some content ->
  (String.length (fst (untilNewline content)) < 60)%nat ->
  ObservationData_of filePath = Raised.
Proof.
  intros Hlen Htype Hopen Hshort. unfold ObservationData_of.
  apply Nat.eqb_neq in Hlen. rewrite Hlen.
  assert (Hext : exists rinexType,
             substr filePath (String.length filePath - 1) 1 = Some rinexType
             /\ negb (String.eqb rinexType "o") && negb (String.eqb rinexType "O")
                = false).
  { destruct Htype as [H|H]; eexists; (split; [exact H|reflexivity]). }
  destruct Hext as (rinexType & -> & Hboth).
  unfold raising at 1. rewrite Run_bind_ret, Hboth, Hopen. cbv zeta.
  rewrite readHeader_turn by reflexivity.
  unfold getline. cbn [eofbit failbit pending orb].
  destruct (untilNewline content) as [l [rest|]]; cbn [fst] in Hshort;
    rewrite (substr_short l 60 13 Hshort); reflexivity.
Qed.

Lemma readHeader_lines (steps : nat) (file file' : ifstream) (line line' : string)
    (header header' : ObservationHeader) :
  readHeader steps file line header = Finished (file', line', header') ->
  Forall (fun l => (60 <= String.length l)%nat) (_infoLines header) ->
  Forall (fun l => (60 <= String.length l)%nat) (_infoLines header')
  /\ (eofbit file' = true
      \/ exists l, last (_infoLines header') = Some l
                   /\ substr l 60 13 = Some "END OF HEADER"%string).
Proof.
  revert file line header.
  induction steps as [|steps IH]; intros file line header Hrun Hall.
  - simpl in Hrun. destruct (eofbit file) eqn:Heof; [|discriminate].
    inversion Hrun; subst. auto.
  - destruct (eofbit file) eqn:Heof.
    { rewrite (readHeader_at_end _ _ _ _ Heof) in Hrun. inversion Hrun; subst. auto. }
    rewrite (readHeader_turn _ _ _ _ Heof) in Hrun.
    destruct (getline file line) as [file1 line1].
    apply Run_bind_Finished in Hrun as (tag & Htag & Hrun).
    apply raising_Finished in Htag.
    assert (Hall1 : Forall (fun l => (60 <= String.length l)%nat)
                      (_infoLines header ++ [line1])).
    { apply Forall_app. split; [exact Hall|].
      constructor; [|constructor]. exact (substr_Some_length _ _ _ _ Htag). }
    destruct (String.eqb_spec tag "END OF HEADER") as [->|Hne].
    { inversion Hrun; subst. simpl. split; [exact Hall1|]. right.
      exists line'. split; [apply last_snoc|exact Htag]. }
    apply Run_bind_Finished in Hrun as (tag' & _ & Hrun).
    destruct (String.eqb tag' "APPROX POSITION XYZ").
    + apply Run_bind_Finished in Hrun as (x & _ & Hrun).
      apply Run_bind_Finished in Hrun as (y & _ & Hrun).
      apply Run_bind_Finished in Hrun as (z & _ & Hrun).
      exact (IH _ _ _ Hrun Hall1).
    + exact (IH _ _ _ Hrun Hall1).
Qed.

(** X13. In a constructed object every stored header line has at least 60
    characters, and records are stored only when the header ended with a
    line carrying END OF HEADER at offset 60, which is then the last
    stored header line. *)
Theorem header_ends_before_records (filePath : string) (data : ObservationData) :
  ObservationData_of filePath = Finished data ->
  Forall (fun l => (60 <= String.length l)%nat) (_infoLines (_header data))
  /\ (_observationRecords data <> [] ->
      exists l, last (_infoLines (_header data)) = Some l
                /\ substr l 60 13 = Some "END OF HEADER"%string).
Proof.
  unfold ObservationData_of. intros Hrun.
  apply Run_bind_Finished in Hrun as (rinexType & _ & Hrun).
  destruct (negb (String.eqb rinexType "o") && negb (String.eqb rinexType "O")).
  { inversion Hrun; subst. simpl. split; [constructor|congruence]. }
  destruct (ifstream_open filePath) as [content|].
  2: { inversion Hrun; subst. simpl. split; [constructor|congruence]. }
  apply Run_bind_Finished in Hrun as ([[file line] header] & Hheader & Hrun).
  apply Run_bind_Finished in Hrun as (records & Hrecords & Hrun).
  inversion Hrun; subst data. simpl.
  destruct (readHeader_lines _ _ _ _ _ _ _ Hheader) as [Hall [Heof|Hend]];
    [constructor| |auto].
  rewrite (readRecords_at_end _ _ _ _ Heof) in Hrecords.
  inversion Hrecords; subst records. split; [exact Hall|congruence].
Qed.

Lemma substr_Some (s : string) (pos len : nat) (t : string) :
  substr s pos len = Some t -> t = String.substring pos len s.
Proof.
  unfold substr. destruct (pos <=? String.length s)%nat; [|discriminate].
  intros H. inversion H. reflexivity.
Qed.

Lemma end_of_header_is_no_position (n : nat) (s : string) :
  String.substring n 13 s = "END OF HEADER"%string ->
  String.eqb (String.substring n 19 s) "APPROX POSITION XYZ" = false.
Proof.
  revert s. induction n as [|n IH]; intros s H; destruct s as [|ch s];
    try discriminate.
  - cbn [String.substring] in H. inversion H; subst ch.
    cbn [String.substring]. reflexivity.
  - cbn [String.substring] in *. exact (IH s H).
Qed.

Lemma readHeader_position (steps : nat) (file file' : ifstream) (line line' : string)
    (header header' : ObservationHeader) :
  readHeader steps file line header = Finished (file', line', header') ->
  _approxPosition header = positionOf (_infoLines header) ->
  _approxPosition header' = positionOf (_infoLines header').
Proof.
  revert file line header.
  induction steps as [|steps IH]; intros file line header Hrun Hpos.
  - simpl in Hrun. destruct (eofbit file) eqn:Heof; [|discriminate].
    inversion Hrun; subst. exact Hpos.
  - destruct (eofbit file) eqn:Heof.
    { rewrite (readHeader_at_end _ _ _ _ Heof) in Hrun. inversion Hrun; subst.
      exact Hpos. }
    rewrite (readHeader_turn _ _ _ _ Heof) in Hrun.
    destruct (getline file line) as [file1 line1].
    apply Run_bind_Finished in Hrun as (tag & Htag & Hrun).
    apply raising_Finished in Htag. apply substr_Some in Htag.
    assert (Hstep : positionOf (_infoLines header ++ [line1])
                    = afterLine (_approxPosition header) line1).
    { unfold positionOf. rewrite fold_left_app. simpl.
      unfold positionOf in Hpos. rewrite <- Hpos. reflexivity. }
    destruct (String.eqb_spec tag "END OF HEADER") as [Hend|Hne].
    { inversion Hrun; subst file' line' header'. simpl. rewrite Hstep.
      unfold afterLine.
      rewrite (end_of_header_is_no_position 60 line1) by congruence.
      reflexivity. }
    apply Run_bind_Finished in Hrun as (tag' & Htag' & Hrun).
    apply raising_Finished in Htag'. apply substr_Some in Htag'.
    destruct (String.eqb tag' "APPROX POSITION XYZ") eqn:Happrox.
    + apply Run_bind_Finished in Hrun as (x & Hx & Hrun).
      apply Run_bind_Finished in Hrun as (y & Hy & Hrun).
      apply Run_bind_Finished in Hrun as (z & Hz & Hrun).
      apply raising_Finished in Hx, Hy, Hz.
      apply substr_Some in Hx, Hy, Hz.
      apply (IH _ _ _ Hrun). simpl. rewrite Hstep. unfold afterLine.
      rewrite <- Htag', Happrox. subst x y z. reflexivity.
    + apply (IH _ _ _ Hrun). simpl. rewrite Hstep. unfold afterLine.
      rewrite <- Htag', Happrox. reflexivity.
Qed.

(** X14. The approximate position of a constructed object is determined by
    its stored header lines: it is the one written by the last stored
    line that carries APPROX POSITION XYZ at offset 60, read from that
    line's columns 1-13, 15-27 and 29-41, so a later such line replaces an
    earlier one; without such a line the member stays as
    default-constructed. *)
Theorem approx_position_from_last_header_line (filePath : string)
    (data : ObservationData) :
  ObservationData_of filePath = Finished data ->
  _approxPosition (_header data) = positionOf (_infoLines (_header data)).
Proof.
  unfold ObservationData_of. intros Hrun.
  apply Run_bind_Finished in Hrun as (rinexType & _ & Hrun).
  destruct (negb (String.eqb rinexType "o") && negb (String.eqb rinexType "O")).
  { inversion Hrun; subst. reflexivity. }
  destruct (ifstream_open filePath) as [content|].
  2: { inversion Hrun; subst. reflexivity. }
  apply Run_bind_Finished in Hrun as ([[file line] header] & Hheader & Hrun).
  apply Run_bind_Finished in Hrun as (records & _ & Hrun).
  inversion Hrun; subst data. simpl.
  exact (readHeader_position _ _ _ _ _ _ _ Hheader eq_refl).
Qed.

Lemma substring_head_length (m : nat) (s : string) :
  String.length (String.substring 0 m s) = Nat.min m (String.length s).
Proof.
  revert s. induction m as [|m IH]; intros s; destruct s as [|ch s]; simpl;
    try reflexivity.
  rewrite IH. reflexivity.
Qed.

Lemma pushSatellite_prn (line : string) (record record' : ObservationRecord) :
  pushSatellite line record = Finished record' ->
  exists prn, _listSatPRN record' = _listSatPRN record ++ [prn]
              /\ String.length prn = 3%nat.
Proof.
  unfold pushSatellite. intros Hpush.
  apply Run_bind_Finished in Hpush as (prn & Hprn & Hpush).
  apply Run_bind_Finished in Hpush as (c1c & _ & Hpush).
  apply Run_bind_Finished in Hpush as (c2p & _ & Hpush).
  apply Run_bind_Finished in Hpush as (l1c & _ & Hpush).
  apply Run_bind_Finished in Hpush as (l2p & Hl2p & Hpush).
  apply raising_Finished in Hprn. apply raising_Finished in Hl2p.
  apply substr_Some_length in Hl2p.
  inversion Hpush; subst record'. simpl. exists prn. split; [reflexivity|].
  unfold substr in Hprn. simpl in Hprn. inversion Hprn.
  rewrite substring_head_length. lia.
Qed.

Lemma readSatellites_prns (count : nat) (file file' : ifstream)
    (line line' : string) (record record' : ObservationRecord) :
  readSatellites count file line record = Finished (file', line', record') ->
  Forall (fun prn => String.length prn = 3%nat) (_listSatPRN record) ->
  Forall (fun prn => String.length prn = 3%nat) (_listSatPRN record').
Proof.
  revert file line record.
  induction count as [|count IH]; intros file line record Hrun Hall.
  - simpl in Hrun. inversion Hrun; subst. exact Hall.
  - rewrite readSatellites_turn in Hrun.
    destruct (getline file line) as [file1 line1].
    apply Run_bind_Finished in Hrun as (system & _ & Hrun).
    destruct (negb (String.eqb system "G")); [exact (IH _ _ _ Hrun Hall)|].
    apply Run_bind_Finished in Hrun as (record1 & Hpush & Hrun).
    apply (IH _ _ _ Hrun).
    destruct (pushSatellite_prn _ _ _ Hpush) as (prn & -> & Hlen).
    apply Forall_app. split; [exact Hall|]. constructor; [exact Hlen|constructor].
Qed.

Lemma readRecords_turn (steps : nat) (file : ifstream) (line : string)
    (records : list ObservationRecord) :
  eofbit file = false ->
  readRecords (S steps) file line records
  = (let '(file, line) := getline file line in
     if String.eqb line "" then Finished records
     else
       record ← readEpochLine line;
       '(file, line, record) ←
         readSatellites (Z.to_nat (_sumSat record)) file line record;
       readRecords steps file line (records ++ [record])).
Proof. intros Heof. simpl. rewrite Heof. reflexivity. Qed.

Lemma readRecords_prns (steps : nat) (file : ifstream) (line : string)
    (records records' : list ObservationRecord) :
  readRecords steps file line records = Finished records' ->
  Forall (fun r => Forall (fun prn => String.length prn = 3%nat) (_listSatPRN r))
    records ->
  Forall (fun r => Forall (fun prn => String.length prn = 3%nat) (_listSatPRN r))
    records'.
Proof.
  revert file line records.
  induction steps as [|steps IH]; intros file line records Hrun Hall.
  - simpl in Hrun. destruct (eofbit file); [|discriminate].
    inversion Hrun; subst. exact Hall.
  - destruct (eofbit file) eqn:Heof.
    { rewrite (readRecords_at_end _ _ _ _ Heof) in Hrun. inversion Hrun; subst.
      exact Hall. }
    rewrite (readRecords_turn _ _ _ _ Heof) in Hrun.
    destruct (getline file line) as [file1 line1].
    destruct (String.eqb line1 ""); [inversion Hrun; subst; exact Hall|].
    apply Run_bind_Finished in Hrun as (record & Hepoch & Hrun).
    apply Run_bind_Finished in Hrun as ([[file2 line2] record2] & Hsats & Hrun).
    apply (IH _ _ _ Hrun). apply Forall_app. split; [exact Hall|].
    constructor; [|constructor].
    apply (readSatellites_prns _ _ _ _ _ _ _ Hsats).
    destruct (readEpochLine_Retained _ _ Hepoch) as [_ ->]. constructor.
Qed.

(** X15. Every satellite identifier stored by the constructor has exactly 3
    characters: a satellite line too short to hold the four observation
    fields raises instead of being stored. *)
Theorem stored_identifiers_have_three_characters (filePath : string)
    (data : ObservationData) (record : ObservationRecord) (prn : string) :
  ObservationData_of filePath = Finished data ->
  In record (_observationRecords data) ->
  In prn (_listSatPRN record) ->
  String.length prn = 3%nat.
Proof.
  unfold ObservationData_of. intros Hrun Hrecord Hprn.
  apply Run_bind_Finished in Hrun as (rinexType & _ & Hrun).
  destruct (negb (String.eqb rinexType "o") && negb (String.eqb rinexType "O")).
  { inversion Hrun; subst. destruct Hrecord. }
  destruct (ifstream_open filePath) as [content|].
  2: { inversion Hrun; subst. destruct Hrecord. }
  apply Run_bind_Finished in Hrun as ([[file line] header] & _ & Hrun).
  apply Run_bind_Finished in Hrun as (records & Hrecords & Hrun).
  inversion Hrun; subst data. simpl in Hrecord.
  pose proof (readRecords_prns _ _ _ _ _ Hrecords ltac:(constructor)) as Hall.
  rewrite Forall_forall in Hall.
  specialize (Hall record ltac:(apply list_elem_of_In; exact Hrecord)).
  rewrite Forall_forall in Hall. apply Hall. apply list_elem_of_In. exact Hprn.
Qed.

End Reading.

(** * The further statements on the bench *)

Section MoreOnTheBench.
Import Bench MoreBench.
Local Open Scope float_scope.

Lemma all_values (n : nat) {A : Type} (run : nat -> Outcome A) :
  forallb (fun i => isValue (run i)) (seq 0 n) = true ->
  forall i, (i < n)%nat -> exists a, run i = Value a.
Proof.
  intros Hall i Hi. rewrite forallb_forall in Hall.
  specialize (Hall i ltac:(apply in_seq; lia)).
  destruct (run i); [eauto|discriminate..].
Qed.

(** The coordinate returned for [epoch] comes from the fourth pass. *)
Lemma coordinate_comes_from_converged_pass_bench :
  computeReceiverPosition (env := bench) epoch almanac station
  = Value (V3 6378237.5612884788 44.539547365973704 (-26.255167956340301))
  /\ exists k est sys,
       (k < 100)%nat
       /\ passes (env := bench) epoch almanac station k start = Some est
       /\ assemble (env := bench) epoch almanac station est = Value sys
       /\ PrimFloat.ltb (norm (head3 (normalEquations (env := bench) sys))) ITER_TOL = true.
Proof.
  assert (H : computeReceiverPosition (env := bench) epoch almanac station
              = Value (V3 6378237.5612884788 44.539547365973704
                         (-26.255167956340301)))
    by (vm_compute; reflexivity).
  split; [exact H|].
  destruct (@coordinate_comes_from_converged_pass bench epoch almanac station _ H)
    as (k & est & sys & Hk & Hpasses & Hsys & Htol & _).
  exists k, est, sys. auto.
Defined.

Lemma epoch_starved_is_starved :
  starved (env := bench) epoch_starved almanac station start.
Proof.
  split; [|split; vm_compute; lia].
  apply (all_values 5). vm_compute. reflexivity.
Qed.

(** With five satellites of which two are disposed, the first pass
    returns the null pointer of line 166. *)
Lemma not_enough_observations_iff_bench :
  starved (env := bench) epoch_starved almanac station start
  /\ computeReceiverPosition (env := bench) epoch_starved almanac station
     = Null NotEnoughObservations.
Proof.
  split; [exact epoch_starved_is_starved|].
  apply (proj2 (@not_enough_observations_iff bench epoch_starved almanac station)).
  exists 0%nat, start. split; [lia|]. split; [reflexivity|].
  exact epoch_starved_is_starved.
Defined.

(** The damped inverse and the runaway satellite give the two convergence
    failures. *)
Lemma convergence_failures_iff_bench :
  computeReceiverPosition (env := bench_damped) epoch almanac station
  = Null OuterNotConverged
  /\ computeReceiverPosition (env := bench) epoch almanac_runaway station
     = Null InnerNotConverged.
Proof.
  split.
  - apply (proj2 (proj1 (@convergence_failures_iff bench_damped epoch almanac station))).
    eexists. vm_compute. reflexivity.
  - apply (proj2 (proj2 (@convergence_failures_iff bench epoch almanac_runaway station))).
    exists 0%nat, start, 0%nat, 20238716.568%float, "G01"%string,
      (uniform 26560E3 0 0 (V3 4E8 0 0)).
    split; [lia|]. split; [reflexivity|]. split; [intros i Hi; lia|].
    split; [reflexivity|]. split; [reflexivity|]. split; [reflexivity|].
    split; [reflexivity|]. exact runaway_never_settles.
Defined.

(** Without a record for G02, the first pass stops at G02, the second
    satellite. *)
Lemma no_ephemeris_iff_bench :
  computeReceiverPosition (env := bench) epoch almanac_without_G02 station
  = Null NoEphemeris.
Proof.
  apply (proj2 (@no_ephemeris_iff bench epoch almanac_without_G02 station)).
  exists 0%nat, start, 1%nat, 21841099.214, "G02"%string.
  split; [lia|]. split; [reflexivity|].
  split; [apply (all_values 1); vm_compute; reflexivity|].
  repeat split; reflexivity.
Defined.

(** [epoch] has eight identifiers and eight first pseudoranges. *)
Lemma parallel_record_never_raises_bench :
  (length (_listSatPRN epoch) <= length (_pseudorange_C1C epoch))%nat
  /\ ((exists c, computeReceiverPosition (env := bench) epoch almanac station = Value c)
      \/ (exists site,
            computeReceiverPosition (env := bench) epoch almanac station = Null site)).
Proof.
  assert (H : (length (_listSatPRN epoch) <= length (_pseudorange_C1C epoch))%nat)
    by (vm_compute; lia).
  exact (conj H (@parallel_record_never_raises bench epoch almanac station H)).
Defined.

(** The system of the first pass over [epoch] has 5 rows for 8
    satellites. *)
Lemma assembled_system_shape_bench :
  assemble (env := bench) epoch almanac station start = Value benchSystem
  /\ length (sysObservable benchSystem) = length (sysDesign benchSystem)
  /\ (4 <= length (sysDesign benchSystem))%nat.
Proof.
  destruct (@assembled_system_shape bench epoch almanac station start benchSystem
              benchSystem_assembled) as (Hobs & _ & _ & _ & Hfour).
  split; [exact benchSystem_assembled|]. split; [exact Hobs|].
  apply Hfour. vm_compute. lia.
Defined.

(** Four satellites without first pseudorange: null at once, with an empty
    ephemeris store. *)
Lemma all_missing_returns_null_bench :
  _listSatPRN epoch_silent <> []
  /\ computeReceiverPosition (env := bench) epoch_silent [] station
     = Null NotEnoughObservations.
Proof.
  assert (H1 : _listSatPRN epoch_silent <> []) by discriminate.
  assert (H2 : forall i, (i < length (_listSatPRN epoch_silent))%nat ->
                 exists pseudorange : double,
                   _pseudorange_C1C epoch_silent !! i = Some pseudorange
                   /\ PrimFloat.ltb pseudorange (EPS (Environment := bench)) = true).
  { intros i Hi.
    do 4 (destruct i as [|i]; [exists 0; split; reflexivity|]).
    simpl in Hi. lia. }
  exact (conj H1 (proj1 (@all_missing_returns_null bench epoch_silent [] station
                           H1 H2))).
Defined.

(** Other second pseudoranges, phases, flag and count leave the answer for
    [epoch] as it is. *)
Lemma only_first_pseudorange_is_used_bench :
  sameObservations epoch epoch_other_signals
  /\ computeReceiverPosition (env := bench) epoch almanac station
     = computeReceiverPosition (env := bench) epoch_other_signals almanac station.
Proof.
  assert (H : sameObservations epoch epoch_other_signals)
    by (repeat split; reflexivity).
  exact (conj H (@only_first_pseudorange_is_used bench almanac station epoch
                   epoch_other_signals H)).
Defined.

(** The record read from the bench file is solved or refused, not
    raised on. *)
Lemma stored_record_never_raises_bench :
  ObservationData_of (env := bench) "site0010.20o" = Finished benchData
  /\ In parsedRecord (_observationRecords benchData)
  /\ ((exists c,
         computeReceiverPosition (env := bench) parsedRecord almanac station = Value c)
      \/ (exists site,
            computeReceiverPosition (env := bench) parsedRecord almanac station
            = Null site)).
Proof.
  assert (H1 : ObservationData_of (env := bench) "site0010.20o" = Finished benchData)
    by reflexivity.
  assert (H2 : In parsedRecord (_observationRecords benchData))
    by (left; reflexivity).
  exact (conj H1 (conj H2 (@stored_record_never_raises bench "site0010.20o" benchData
                             parsedRecord almanac station H1 H2))).
Defined.

(** A text file is not read. *)
Lemma unreadable_path_gives_empty_data_bench :
  String.length "notes.txt" <> 0%nat
  /\ substr "notes.txt" (String.length "notes.txt" - 1) 1 = Some "t"%string
  /\ ObservationData_of (env := bench) "notes.txt"
     = Finished (@mkObservationData bench (@mkHeader bench [] None) []).
Proof.
  assert (H1 : String.length "notes.txt" <> 0%nat) by discriminate.
  assert (H2 : substr "notes.txt" (String.length "notes.txt" - 1) 1
               = Some "t"%string) by reflexivity.
  assert (H3 : ("t" <> "o" /\ "t" <> "O")%string) by (split; discriminate).
  pose proof (@unreadable_path_gives_empty_data bench "notes.txt" "t" H1 H2
                (or_introl H3)) as H.
  split; [exact H1 | split; [exact H2 | exact H]].
Defined.

(** An empty observation file raises. *)
Lemma short_first_line_raises_bench :
  ifstream_open (Environment := bench_empty_file) "empty.20o" = Some EmptyString
  /\ ObservationData_of (env := bench_empty_file) "empty.20o" = Raised.
Proof.
  assert (H1 : ifstream_open (Environment := bench_empty_file) "empty.20o"
               = Some EmptyString) by reflexivity.
  assert (H2 : String.length "empty.20o" <> 0%nat) by discriminate.
  assert (H3 : substr "empty.20o" (String.length "empty.20o" - 1) 1
               = Some "o"%string) by reflexivity.
  assert (H4 : (String.length (fst (untilNewline EmptyString)) < 60)%nat)
    by (vm_compute; lia).
  pose proof (@short_first_line_raises bench_empty_file "empty.20o" EmptyString
                H2 (or_introl H3) H1 H4) as H.
  split; [exact H1 | exact H].
Defined.

(** The bench file has two header lines, the second being END OF HEADER. *)
Lemma header_ends_before_records_bench :
  ObservationData_of (env := bench) "site0010.20o" = Finished benchData
  /\ exists l, last (_infoLines (_header benchData)) = Some l
               /\ substr l 60 13 = Some "END OF HEADER"%string.
Proof.
  assert (H1 : ObservationData_of (env := bench) "site0010.20o" = Finished benchData)
    by reflexivity.
  assert (H2 : _observationRecords benchData <> []) by discriminate.
  pose proof (proj2 (@header_ends_before_records bench "site0010.20o" benchData H1)
                H2) as H.
  split; [exact H1 | exact H].
Defined.

(** The position read from the bench file is that of its first line. *)
Lemma approx_position_from_last_header_line_bench :
  ObservationData_of (env := bench) "site0010.20o" = Finished benchData
  /\ positionOf (env := bench) (_infoLines (_header benchData))
     = Some (V3 6378137 0 0).
Proof.
  assert (H1 : ObservationData_of (env := bench) "site0010.20o" = Finished benchData)
    by reflexivity.
  pose proof (@approx_position_from_last_header_line bench "site0010.20o"
                benchData H1) as H.
  split; [exact H1 | symmetry; exact H].
Defined.

(** The identifiers read from the bench file. *)
Lemma stored_identifiers_have_three_characters_bench :
  ObservationData_of (env := bench) "site0010.20o" = Finished benchData
  /\ In "G02"%string (_listSatPRN parsedRecord)
  /\ String.length "G02" = 3%nat.
Proof.
  assert (H1 : ObservationData_of (env := bench) "site0010.20o" = Finished benchData)
    by reflexivity.
  assert (H2 : In parsedRecord (_observationRecords benchData))
    by (left; reflexivity).
  assert (H3 : In "G02"%string (_listSatPRN parsedRecord))
    by (right; left; reflexivity).
  pose proof (@stored_identifiers_have_three_characters bench "site0010.20o"
                benchData parsedRecord "G02" H1 H2 H3) as H.
  split; [exact H1 | split; [exact H3 | exact H]].
Defined.

End MoreOnTheBench.
